(** * iba2opcua: recorder-file extraction and playback

    A shallow embedding of [pyIbaTools/pyIbaTools.py] and of the playback
    loop of [server.py], followed by the properties established about them.

    Conventions of the embedding:
    - Python exceptions are values of [exn]; a call that may raise returns a
      [result].
    - Python [float]s are idealised as exact rationals ([Q]); [int(x)] is
      truncation toward zero of that rational.
    - Python [str] is [string]; Python [int] is [Z].
    - The recorder library ([ibaFilesLite]), [numpy], [pandas] and [datetime]
      are outside the repository.  What the recorder library answers for a
      path is bundled in the record [IbaFile]; the behaviour of [numpy] and
      [datetime] that the repository relies on without fixing it is the class
      [PyLibs]; the few [pandas] operations used are modelled on a small
      table type [DataFrame]. *)

From Stdlib Require Import ZArith QArith Qround Qabs Lqa Lia String Ascii List.
From stdpp Require Import base option list strings gmap sorting pretty.

Open Scope Z_scope.

(** ** Exceptions and results *)

Inductive exn : Set :=
  | ChannelNotFoundError
  | IbaFileDamagedError
  | IbaFileNotCompleteError
  | DataStackingError
  | IbaFileIsCurrentlyWrittenError
  | FileNotFoundError
  | RuntimeError
  | ValueError
  | TypeError
  | ZeroDivisionError
  | IndexError
  | KeyError
  | UnboundLocalError
  | InvalidIndexError.

Inductive result (A : Type) : Type :=
  | Ok (a : A)
  | Raise (e : exn).
Arguments Ok {A} a.
Arguments Raise {A} e.

(** Sequencing: the first exception ends the computation. *)
Definition rbind {A B} (m : result A) (k : A -> result B) : result B :=
  match m with
  | Ok a => k a
  | Raise e => Raise e
  end.

Definition rmap {A B} (f : A -> B) (m : result A) : result B :=
  rbind m (fun a => Ok (f a)).

Declare Scope result_scope.
Delimit Scope result_scope with result.
Notation "x ← y ; z" := (rbind y (fun x => z))
  (at level 20, y at level 100, z at level 200, only parsing) : result_scope.
Notation "' x ← y ; z" := (rbind y (fun x => z))
  (at level 20, x pattern, y at level 100, z at level 200, only parsing) : result_scope.
Open Scope result_scope.

Definition is_Ok {A} (r : result A) : bool :=
  match r with Ok _ => true | Raise _ => false end.

(** ** Python primitives *)

(** [int(x)] on a float: truncation toward zero. *)
Definition py_int (q : Q) : Z := Z.quot (Qnum q) (Z.pos (Qden q)).

(** [a / b] on floats. *)
Definition py_truediv (a b : Q) : result Q :=
  if Qeq_bool b 0 then Raise ZeroDivisionError else Ok (a / b)%Q.



(** [l[::step]] for [step = S k]: positions 0, step, 2*step, ...
    [skip] is the number of elements still to pass over. *)
Fixpoint every_nth {A} (k skip : nat) (l : list A) : list A :=
  match l with
  | [] => []
  | x :: l' =>
      match skip with
      | O => x :: every_nth k k l'
      | S s => every_nth k s l'
      end
  end.

(** [l[::k]] for a Python list or a numpy array. *)
Definition py_slice_step {A} (l : list A) (k : Z) : result (list A) :=
  match k with
  | Z0 => Raise ValueError
  | Z.pos p => Ok (every_nth (Pos.to_nat p - 1) 0 l)
  | Z.neg p => Ok (every_nth (Pos.to_nat p - 1) 0 (reverse l))
  end.

(** [l[i] = x] on a Python list: negative indices count from the end,
    anything outside raises [IndexError]. *)
Definition py_list_setitem {A} (l : list A) (i : Z) (x : A) : result (list A) :=
  let n := Z.of_nat (length l) in
  if decide (0 <= i < n) then Ok (<[Z.to_nat i := x]> l)
  else if decide (- n <= i < 0) then Ok (<[Z.to_nat (n + i) := x]> l)
  else Raise IndexError.

(** [[x] * n]. *)
Definition py_list_mul {A} (x : A) (n : Z) : list A := replicate (Z.to_nat n) x.

(** [range(a, b)]. *)
Definition py_range (a b : Z) : list Z := seqZ a (b - a).

(** Characters removed by [str.strip()]. *)
Definition py_isspace (c : ascii) : bool :=
  let n := nat_of_ascii c in
  ((9 <=? n)%nat && (n <=? 13)%nat) || ((28 <=? n)%nat && (n <=? 32)%nat).

Fixpoint lstrip (s : string) : string :=
  match s with
  | EmptyString => EmptyString
  | String c s' => if py_isspace c then lstrip s' else s
  end.

Fixpoint rstrip (s : string) : string :=
  match s with
  | EmptyString => EmptyString
  | String c s' =>
      match rstrip s' with
      | EmptyString => if py_isspace c then EmptyString else String c EmptyString
      | r => String c r
      end
  end.

(** [s.strip()]. *)
Definition py_strip (s : string) : string := rstrip (lstrip s).

(** The scan of [s.split(sep)] for a non-empty [sep]: [cur] is the token
    being read, [skip] the number of characters of a separator occurrence
    still to pass over. *)
Fixpoint split_scan (sep s : string) (skip : nat) (cur : string) : list string :=
  match s with
  | EmptyString => [cur]
  | String c s' =>
      match skip with
      | S k => split_scan sep s' k cur
      | O =>
          if String.prefix sep s
          then cur :: split_scan sep s' (String.length sep - 1) EmptyString
          else split_scan sep s' 0 (cur +:+ String c EmptyString)
      end
  end.

(** [s.split(sep)]: an empty separator is a [ValueError]. *)
Definition py_split (s sep : string) : result (list string) :=
  match sep with
  | EmptyString => Raise ValueError
  | _ => Ok (split_scan sep s 0 EmptyString)
  end.

(** [sub in s] on strings. *)
Fixpoint py_str_contains (sub s : string) : bool :=
  String.prefix sub s ||
  match s with
  | EmptyString => false
  | String _ s' => py_str_contains sub s'
  end.

(** [s[n:]] for [n >= 0]. *)
Fixpoint py_str_from (n : nat) (s : string) : string :=
  match n, s with
  | O, _ => s
  | S n', String _ s' => py_str_from n' s'
  | S _, EmptyString => EmptyString
  end.

(** [re.match("[0-9]*[.:][0-9]*", s)]: after the leading digits comes a dot
    or a colon; the trailing digit run may be empty and the match need not
    reach the end of [s]. *)
Definition is_digit (c : ascii) : bool :=
  let n := nat_of_ascii c in (48 <=? n)%nat && (n <=? 57)%nat.

Fixpoint re_match_channel_id (s : string) : bool :=
  match s with
  | EmptyString => false
  | String c s' =>
      if is_digit c then re_match_channel_id s'
      else Ascii.eqb c "."%char || Ascii.eqb c ":"%char
  end.

(** [np.linspace(a, b, n)]: [n] points from [a] to [b], both included. *)
Definition np_linspace (a b : Q) (n : Z) : result (list Q) :=
  if decide (n < 0) then Raise ValueError
  else if decide (n = 1) then Ok [a]
  else Ok ((fun i : nat => a + inject_Z (Z.of_nat i) * ((b - a) / inject_Z (n - 1)))%Q
             <$> seq 0 (Z.to_nat n)).


(** [for x in l: st = body(st, x)], stopping at the first exception. *)
Fixpoint for_each {A S} (body : S -> A -> result S) (st : S) (l : list A) : result S :=
  match l with
  | [] => Ok st
  | x :: l' =>
      match body st x with
      | Ok st' => for_each body st' l'
      | Raise e => Raise e
      end
  end.

(** [enumerate(l)]. *)
Definition py_enumerate {A} (l : list A) : list (nat * A) := imap pair l.

(** [sorted(l, key=key)]: a stable sort; [x] goes in front of the first
    element whose key is not smaller. *)
Fixpoint insert_by {A} (key : A -> Q) (x : A) (l : list A) : list A :=
  match l with
  | [] => [x]
  | y :: l' =>
      if Qle_bool (key x) (key y) then x :: y :: l' else y :: insert_by key x l'
  end.

Definition py_sorted {A} (key : A -> Q) (l : list A) : list A :=
  foldr (insert_by key) [] l.

(** ** Tables (the part of pandas the repository uses) *)

(** A table cell: a float, a text, a time stamp (seconds), or the
    null marker ([None], [NaN], [NaT]). *)
Inductive cell : Type :=
  | Num (q : Q)
  | Str (s : string)
  | Stamp (t : Q)
  | Null.

(** A table with a [RangeIndex] of [df_index] rows and labelled columns, in
    order; labels may repeat (pandas allows it). *)
Record DataFrame : Type := mkDataFrame {
  df_index : nat;
  df_columns : list (string * list cell)
}.

(** [pd.DataFrame()]. *)
Definition pd_DataFrame : DataFrame := mkDataFrame 0 [].

(** [df.columns]. *)
Definition df_names (df : DataFrame) : list string := (df_columns df).*1.

(** [df.shape[0]]. *)
Definition df_shape0 (df : DataFrame) : Z := Z.of_nat (df_index df).

(** The column stored under a label (the first one, should it repeat). *)
Fixpoint find_column (name : string) (cols : list (string * list cell))
    : option (list cell) :=
  match cols with
  | [] => None
  | c :: cols' => if decide (c.1 = name) then Some c.2 else find_column name cols'
  end.

Definition df_column (df : DataFrame) (name : string) : option (list cell) :=
  find_column name (df_columns df).

(** [df[name]]: [KeyError] on an unknown label. *)
Definition df_getitem (df : DataFrame) (name : string) : result (list cell) :=
  match df_column df name with
  | Some v => Ok v
  | None => Raise KeyError
  end.

(** [series[i]] on a column with a [RangeIndex]: a label lookup, [KeyError]
    outside [0 .. len-1]. *)
Definition series_getitem (v : list cell) (i : Z) : result cell :=
  if decide (0 <= i) then
    match v !! Z.to_nat i with
    | Some c => Ok c
    | None => Raise KeyError
    end
  else Raise KeyError.

(** Storing [vals] under [name]: every column already carrying the label
    is replaced in place; a new label is appended at the end. *)
Definition set_column (name : string) (vals : list cell)
    (cols : list (string * list cell)) : list (string * list cell) :=
  if decide (name ∈ cols.*1)
  then (fun c : string * list cell => if decide (c.1 = name) then (c.1, vals) else c) <$> cols
  else cols ++ [(name, vals)].

(** [df[name] = value] for an array [value].  A table without rows takes
    the length of a non-empty [value] as its new index (columns already
    there are filled with nulls); otherwise a length that differs from the
    index is a [ValueError]. *)
Definition df_setitem (df : DataFrame) (name : string) (value : list cell)
    : result DataFrame :=
  if decide (df_index df = 0%nat ∧ length value ≠ 0%nat) then
    Ok (mkDataFrame (length value)
          (set_column name value
             ((fun c : string * list cell => (c.1, replicate (length value) Null))
                <$> df_columns df)))
  else if decide (length value = df_index df) then
    Ok (mkDataFrame (df_index df) (set_column name value (df_columns df)))
  else Raise ValueError.

(** [df[name] = None]: the scalar is broadcast over the index. *)
Definition df_setitem_scalar (df : DataFrame) (name : string) (c : cell) : DataFrame :=
  mkDataFrame (df_index df) (set_column name (replicate (df_index df) c) (df_columns df)).

(** Extending a column with nulls up to [n] rows. *)
Definition pad_column (n : nat) (c : string * list cell) : string * list cell :=
  (c.1, c.2 ++ replicate (n - length c.2) Null).

(** [pd.concat([a, b], axis=1)]: columns side by side on the union of the
    two row indexes, the shorter table padded with nulls. *)
Definition pd_concat_axis1 (a b : DataFrame) : DataFrame :=
  let n := (df_index a `max` df_index b)%nat in
  mkDataFrame n ((pad_column n <$> df_columns a) ++ (pad_column n <$> df_columns b)).

(** Labels in order of first appearance. *)
Definition first_appearance (names : list string) : list string :=
  reverse (remove_dups (reverse names)).

(** The rows a table contributes to the column [name] of a row-wise
    concatenation: its own column, or nulls over its whole length. *)
Definition rows_for (name : string) (df : DataFrame) : list cell :=
  default (replicate (df_index df) Null) (df_column df name).

(** [pd.concat(dfs, ignore_index=True)]: tables one below the other.
    Nothing to concatenate is a [ValueError].  When all tables carry the same
    labels in the same order the columns are joined by position.  Otherwise
    they are aligned by label, which pandas refuses ([InvalidIndexError]) if
    a table repeats a label; the result has the union of the labels, in order
    of first appearance, and nulls where a table lacks a label. *)
Definition pd_concat (dfs : list DataFrame) : result DataFrame :=
  match dfs with
  | [] => Raise ValueError
  | d :: ds =>
      let n := sum_list (df_index <$> dfs) in
      if decide (Forall (fun d' => df_names d' = df_names d) ds) then
        Ok (mkDataFrame n
              (imap (fun j (c : string * list cell) =>
                       (c.1, mjoin ((fun d' => default [] (snd <$> df_columns d' !! j)) <$> dfs)))
                    (df_columns d)))
      else if decide (Forall (fun d' => NoDup (df_names d')) dfs) then
        Ok (mkDataFrame n
              ((fun name => (name, mjoin (rows_for name <$> dfs)))
                 <$> first_appearance (mjoin (df_names <$> dfs))))
      else Raise InvalidIndexError
  end.

(** ** The recorder library, as seen from the repository *)

(** What [chan_reader.QueryData()] returns: the samples and the channel's
    own clock period. *)
Record ArrayData : Type := mkArrayData {
  Timebase : Q;
  array_values : list Q
}.

(** An [ibaFilesLite.ChannelReader].  [QueryData] and [QueryTextData] answer
    [None] as the library does for unreadable data; a text channel's data is
    a sequence of (time, text) events. *)
Record ChannelReader : Type := mkChannelReader {
  IsText : bool;
  QueryData : option ArrayData;
  QueryTextData : option (list (Q * string))
}.

(** A channel as callers name it: an [ibaFilesLite.ChannelId], or a string
    (an id such as ["3:12"], or a channel name). *)
Inductive channel_ref : Type :=
  | ChannelId (module nr : Z)
  | ChannelStr (s : string).

(** Everything the outside world answers about one path. *)
Record IbaFile : Type := mkIbaFile {
  path : string;
  (** [os.path.isfile(path)] *)
  isfile : bool;
  (** [ibaFilesLite.isCurrentPDA(path)] *)
  isCurrentPDA : bool;
  (** whether [FileReader.Open(path)] returns ([RuntimeError] otherwise) *)
  Open_ok : bool;
  (** [float(reader.QueryInfoByName('clk'))] *)
  info_clk : result Q;
  (** [int(reader.QueryInfoByName('frames'))] *)
  info_frames : result Z;
  (** [reader.GetStartTime()], in seconds *)
  GetStartTime : Q;
  (** [reader.EnumerateChannels()], each entry as ([str(info[0])], [info[1]]) *)
  EnumerateChannels : list (string * string);
  (** [reader.QueryChannel(c)] and [reader.QueryChannelByName(name)] *)
  QueryChannel : channel_ref -> result ChannelReader;
  QueryChannelByName : string -> result ChannelReader;
  (** [open(path, "rb")]: the lines of the file, each with its terminator,
      or the exception raised *)
  raw_lines : result (list string)
}.

(** An [ibaFilesLite.FileReader]: closed, or open on a file. *)
Definition FileReader : Type := option IbaFile.

Definition reader_IsOpen (reader : FileReader) : bool := bool_decide (is_Some reader).

Definition reader_Open (iba_file : IbaFile) : result FileReader :=
  if Open_ok iba_file then Ok (Some iba_file) else Raise RuntimeError.

Definition reader_Close (reader : FileReader) : FileReader := None.

(** A query on a reader; a closed reader answers [RuntimeError]. *)
Definition reader_query {A} (reader : FileReader) (q : IbaFile -> result A) : result A :=
  match reader with
  | Some f => q f
  | None => Raise RuntimeError
  end.

(** Library behaviour the repository calls without pinning it down. *)
Class PyLibs : Type := {
  (** [np.repeat(a, r)] for a float [r] *)
  np_repeat_float : list cell -> Q -> result (list cell);
  (** [datetime.strptime(s, fmt)], in seconds *)
  strptime : string -> string -> result Q
}.

(** ** Channel declarations *)

(** One entry of a channel list: a channel, or a list of alternatives. *)
Inductive chan_entry : Type :=
  | One (chn : string)
  | Alt (alts : list string).

#[global] Instance chan_entry_eq_dec : EqDecision chan_entry.
Proof. solve_decision. Defined.

(** The [channels] argument. *)
Inductive channels_arg : Type :=
  | ChNone
  | ChStr (s : string)
  | ChDict (items : list (string * string))
  | ChList (l : list chan_entry).

(** The [names] argument. *)
Inductive names_arg : Type :=
  | NmNone
  | NmStr (s : string)
  | NmList (l : list string).

(** ** pyIbaTools *)

(** [with ibaReader(iba_file) as reader: body].  The reader is closed after
    the body returns; an exception in the body leaves the block at once. *)
Definition ibaReader {A} (iba_file : IbaFile) (body : FileReader -> result A) : result A :=
  if isCurrentPDA iba_file then Raise IbaFileIsCurrentlyWrittenError
  else
    match reader_Open iba_file with
    | Raise RuntimeError =>
        if negb (isfile iba_file) then Raise FileNotFoundError else Raise RuntimeError
    | Raise e => Raise e
    | Ok reader =>
        a ← body reader;
        let _ := reader_Close reader in
        Ok a
    end.

Definition __get_iba_channel_reader__ (channel_ : channel_ref) (freader_ : FileReader)
    : result ChannelReader :=
  match channel_ with
  | ChannelId _ _ => reader_query freader_ (fun f => QueryChannel f channel_)
  | ChannelStr s =>
      if re_match_channel_id s
      then reader_query freader_ (fun f => QueryChannel f channel_)
      else reader_query freader_ (fun f => QueryChannelByName f s)
  end.

(** The inner test of [get_channels]: [cid in str(info[0])[3:] or cid == info[1]].
    An alternative list on the left of [in] is a [TypeError]. *)
Definition channel_matches (cid : chan_entry) (info : string * string) : result bool :=
  match cid with
  | One c => Ok (py_str_contains c (py_str_from 3 info.1) || bool_decide (c = info.2))
  | Alt _ => Raise TypeError
  end.

Definition get_channels (iba_file : IbaFile) (ids : option (list chan_entry))
    : result (list string) :=
  ibaReader iba_file (fun reader =>
    infos ← reader_query reader (fun f => Ok (EnumerateChannels f));
    match ids with
    | Some ids =>
        for_each (fun channels cid =>
          for_each (fun channels info =>
            b ← channel_matches cid info;
            Ok (if b : bool then channels ++ [info.2] else channels))
            channels infos)
          [] ids
    | None => Ok (snd <$> infos)
    end).

Definition is_channel (chan : channel_ref) (file : IbaFile) : result bool :=
  match ibaReader file (fun reader => __get_iba_channel_reader__ chan reader) with
  | Ok chanReader => Ok true
  | Raise _ => Ok false
  end.

Definition __check_file__ (reader : FileReader) (iba_file : IbaFile)
    : result (Q * Z) * FileReader :=
  let close_file := negb (reader_IsOpen reader) in
  match (if close_file then reader_Open iba_file else Ok reader) with
  | Raise e => (Raise e, reader)
  | Ok reader =>
      match (clk ← reader_query reader info_clk;
             frames ← reader_query reader info_frames;
             Ok (clk, frames)) with
      | Raise _ =>
          let reader := if close_file then reader_Close reader else reader in
          (if negb (isfile iba_file) then Raise FileNotFoundError
           else Raise IbaFileDamagedError, reader)
      | Ok (clk, frames) =>
          let reader := if close_file then reader_Close reader else reader in
          if decide (frames >= 1000000000) then
            (Raise IbaFileNotCompleteError,
             if close_file then reader_Close reader else reader)
          else (Ok (clk, frames), reader)
      end
  end.

Definition checkFile (iba_file : IbaFile) : result (Q * Z) :=
  ibaReader iba_file (fun reader => (__check_file__ reader iba_file).1).

Section Extraction.
Context `{libs : PyLibs}.

(** The header scan of [get_start_time]: read on until a line starts with
    [starttime:] or the 21st line has been read.  [rest] holds the lines
    not yet read; [readline] past the end answers the empty string.  The
    loop runs at most 20 times, which is the [fuel] it is started with. *)
Fixpoint header_scan (fuel : nat) (rest : list string) (cur_line : string) (line_idx : Z)
    : list string * string * Z :=
  if String.prefix "starttime:" cur_line then (rest, cur_line, line_idx)
  else
    match fuel with
    | O => (rest, cur_line, line_idx)
    | S fuel' =>
        let cur_line := default EmptyString (head rest) in
        let rest := tail rest in
        let line_idx := line_idx + 1 in
        if decide (line_idx > 20) then (rest, cur_line, line_idx)
        else header_scan fuel' rest cur_line line_idx
    end.

(** [f.tell() == file_size] holds when no line is left to read. *)
Definition get_start_time (file : IbaFile) : result Q :=
  lines ← raw_lines file;
  let '(rest, cur_line, line_idx) :=
    header_scan 20 (tail lines) (default EmptyString (head lines)) 1 in
  if bool_decide (rest = []) || bool_decide (line_idx > 20) then
    ibaReader file (fun reader => reader_query reader (fun f => Ok (GetStartTime f)))
  else
    let start_time :=
      String.concat EmptyString (split_scan "starttime:" (py_strip cur_line) 0 EmptyString) in
    match strptime start_time "%d.%m.%Y %H:%M:%S.%f" with
    | Ok t => Ok t
    | Raise _ => strptime start_time "%d.%m.%Y %H:%M:%S"
    end.

(** [sort_dict[key] = value] on a dict: a known key keeps its place. *)
Definition dict_set (key : string) (value : Q) (d : list (string * Q)) : list (string * Q) :=
  if decide (key ∈ d.*1)
  then (fun kv : string * Q => if decide (kv.1 = key) then (key, value) else kv) <$> d
  else d ++ [(key, value)].

(** The paths of the files whose start time could be read, by start time. *)
Definition sortIbaFiles (iba_files : list IbaFile) : list string :=
  let sort_dict :=
    foldl (fun sort_dict iba_file =>
             match get_start_time iba_file with
             | Ok t => dict_set (path iba_file) t sort_dict
             | Raise _ => sort_dict
             end) [] iba_files in
  fst <$> py_sorted snd sort_dict.

Definition __read_numeric_channel__ (chan_reader : ChannelReader) (tbase clk : Q)
    : result (list cell) :=
  match QueryData chan_reader with
  | None => Raise IbaFileDamagedError
  | Some channel_data =>
      let chn_clk := Timebase channel_data in
      let processed_data := Num <$> array_values channel_data in
      processed_data ←
        (if negb (Qeq_bool chn_clk clk) then
           fct ← py_truediv chn_clk clk;
           np_repeat_float processed_data fct
         else Ok processed_data);
      if negb (Qeq_bool tbase 0) then
        step ← py_truediv tbase clk;
        py_slice_step processed_data (py_int step)
      else Ok processed_data
  end.

(** The body of the event loop of [__read_text_channel__]. *)
Definition fill_event (channel_data : list (Q * string)) (clk : Q) (frames : Z)
    (processed_data : list string) (ev : nat * (Q * string)) : result (list string) :=
  let '(idx, text_data) := ev in
  start_idx ← rmap py_int (py_truediv text_data.1 clk);
  end_idx ←
    (if decide (idx < length channel_data)%nat then
       match channel_data !! idx with
       | Some e => rmap py_int (py_truediv e.1 clk)
       | None => Raise IndexError
       end
     else Ok frames);
  let cur_str := text_data.2 in
  for_each (fun processed_data idx_list => py_list_setitem processed_data idx_list cur_str)
    processed_data (py_range start_idx end_idx).

Definition __read_text_channel__ (chan_reader : ChannelReader) (tbase clk : Q) (frames : Z)
    : result (list cell) :=
  match QueryTextData chan_reader with
  | None => Raise IbaFileDamagedError
  | Some channel_data =>
      let processed_data := py_list_mul EmptyString frames in
      processed_data ←
        for_each (fill_event channel_data clk frames) processed_data
          (py_enumerate channel_data);
      processed_data ←
        (if negb (Qeq_bool tbase 0) then
           step ← py_truediv tbase clk;
           py_slice_step processed_data (py_int step)
         else Ok processed_data);
      Ok (fmap (M:=list) Str processed_data)
  end.

Definition __read_channel__ (reader : FileReader) (channel : channel_ref)
    (tbase clk : Q) (frames : Z) : result (list cell) :=
  match __get_iba_channel_reader__ channel reader with
  | Raise RuntimeError => Raise ChannelNotFoundError
  | Raise e => Raise e
  | Ok chan_reader =>
      if IsText chan_reader
      then __read_text_channel__ chan_reader tbase clk frames
      else __read_numeric_channel__ chan_reader tbase clk
  end.

(** [[el.strip() for el in s.split(delimiter)]]. *)
Definition split_strip (s delimiter : string) : result (list string) :=
  tokens ← py_split s delimiter;
  Ok (fmap (M:=list) py_strip tokens).

Definition __declaration_check__ (iba_file : IbaFile) (channels : channels_arg)
    (names : names_arg) (delimiter : string) : result (list chan_entry * list string) :=
  names ←
    match names with
    | NmStr s => rmap NmList (split_strip s delimiter)
    | _ => Ok names
    end;
  let all_channels :=
    channels ← get_channels iba_file None;
    Ok (One <$> channels, NmList channels) in
  '(channels, names) ←
    match channels with
    | ChNone => all_channels
    | ChStr s =>
        if bool_decide (s = EmptyString) || bool_decide (s = "*"%string) then all_channels
        else
          channels ← split_strip s delimiter;
          Ok (One <$> channels, names)
    | ChDict items => Ok (One <$> items.*1, NmList items.*2)
    | ChList l => Ok (filter (fun chn => chn ≠ One EmptyString) l, names)
    end;
  match names with
  | NmList l =>
      if decide (length channels ≠ length l) then
        names ← get_channels iba_file (Some channels); Ok (channels, names)
      else Ok (channels, l)
  | _ => names ← get_channels iba_file (Some channels); Ok (channels, names)
  end.

(** [__cache_prep__] reads the whole file once and drops what it read. *)
Definition __cache_prep__ (iba_file : IbaFile) : result unit :=
  _ ← raw_lines iba_file; Ok tt.

(** The alternatives of one entry, in order: the data of the first one
    found, or [None] when every one raised [ChannelNotFoundError]
    ([any_channel_found] stays [False]). *)
Fixpoint read_alternatives (reader : FileReader) (tbase clk : Q) (frames : Z)
    (chn : list string) : result (option (list cell)) :=
  match chn with
  | [] => Ok None
  | alt_chn :: chn' =>
      match __read_channel__ reader (ChannelStr alt_chn) tbase clk frames with
      | Ok chan_data => Ok (Some chan_data)
      | Raise ChannelNotFoundError => read_alternatives reader tbase clk frames chn'
      | Raise e => Raise e
      end
  end.

(** [df[names[num]] = chan_data], any exception turned into
    [DataStackingError].  [chan_data] is the local variable of
    [readIbaFile]: [None] while nothing has been bound to it. *)
Definition add_channel (df : DataFrame) (names : list string) (num : nat)
    (chan_data : option (list cell)) : result (DataFrame * option (list cell)) :=
  match chan_data, names !! num with
  | Some data, Some name =>
      match df_setitem df name data with
      | Ok df => Ok (df, chan_data)
      | Raise _ => Raise DataStackingError
      end
  | _, _ => Raise DataStackingError
  end.

(** One round of the channel loop of [readIbaFile]; the state is the
    table built so far and the current binding of [chan_data]. *)
Definition read_entry (reader : FileReader) (tbase clk : Q) (frames : Z) (ignore : bool)
    (names : list string) (st : DataFrame * option (list cell)) (e : nat * chan_entry)
    : result (DataFrame * option (list cell)) :=
  let '(df, chan_data) := st in
  let '(num, chn) := e in
  match chn with
  | Alt chn =>
      found ← read_alternatives reader tbase clk frames chn;
      match found with
      | Some data => add_channel df names num (Some data)
      | None =>
          if negb ignore then Raise ChannelNotFoundError
          else add_channel df names num chan_data
      end
  | One chn =>
      match __read_channel__ reader (ChannelStr chn) tbase clk frames with
      | Ok data => add_channel df names num (Some data)
      | Raise ChannelNotFoundError =>
          if ignore then Ok st else Raise ChannelNotFoundError
      | Raise e => Raise e
      end
  end.

Definition readIbaFile (iba_file : IbaFile) (channels : channels_arg) (names : names_arg)
    (tbase : Q) (delimiter : string) (caching ignore : bool) : result DataFrame :=
  '(channels, names) ← __declaration_check__ iba_file channels names delimiter;
  _ ← (if caching && bool_decide (10 < length channels)%nat
       then __cache_prep__ iba_file else Ok tt);
  ibaReader iba_file (fun reader =>
    '(clk, frames) ← (__check_file__ reader iba_file).1;
    start_time ← reader_query reader (fun f => Ok (GetStartTime f));
    let end_time := (start_time + clk * inject_Z (frames - 1))%Q in
    time_data ← np_linspace start_time end_time frames;
    time_data ←
      (if negb (Qeq_bool tbase 0) then
         step ← py_truediv tbase clk;
         py_slice_step time_data (py_int step)
       else Ok time_data);
    st ← for_each (read_entry reader tbase clk frames ignore names)
           (pd_DataFrame, None) (py_enumerate channels);
    let df := st.1 in
    let tf := mkDataFrame (length time_data) [("Time"%string, Stamp <$> time_data)] in
    Ok (pd_concat_axis1 tf df)).

(** [list(set(all_columns) - set(df.columns.values))]; the order in which
    a set is listed is left to [elements]. *)
Definition missing_columns (all_columns : list string) (df : DataFrame) : list string :=
  elements ((list_to_set all_columns : gset string) ∖ list_to_set (df_names df)).

(** The second loop of [readIbaFiles]: every label of [all_columns] the
    table lacks is added as a column of nulls. *)
Definition fill_missing (all_columns : list string) (df : DataFrame) : DataFrame :=
  foldl (fun df column => df_setitem_scalar df column Null) df
    (missing_columns all_columns df).

(** One round of the first loop of [readIbaFiles]; [acc] holds [dfs] and
    [columns]. *)
Definition collect (channels : channels_arg) (names : names_arg) (tbase : Q)
    (delimiter : string) (acc : list DataFrame * list string) (file : IbaFile)
    : result (list DataFrame * list string) :=
  temp_df ← readIbaFile file channels names tbase delimiter true true;
  Ok (acc.1 ++ [temp_df], acc.2 ++ df_names temp_df).

Definition readIbaFiles (iba_file_list : list IbaFile) (channels : channels_arg)
    (names : names_arg) (tbase : Q) (delimiter : string) : result DataFrame :=
  '(dfs, columns) ←
    for_each (collect channels names tbase delimiter) ([], []) iba_file_list;
  let all_columns := elements (list_to_set columns : gset string) in
  pd_concat (fill_missing all_columns <$> dfs).
End Extraction.

(** ** server.py: the playback loop *)

(** A channel of a playback group: [chan['id']] and the node id of
    [chan['opc_value']]. *)
Record OpcChannel : Type := mkOpcChannel {
  chan_id : string;
  opc_value : N
}.

(** The state a [VariableUpdater] thread works on: the cursor [idx], the
    deadline [_nextCall], how many times [time.time()] has been read, and
    what the thread has done to the outside: values written to the server,
    durations handed to [time.sleep], and overruns printed. *)
Record Playback : Type := mkPlayback {
  idx : Z;
  _nextCall : Q;
  clock_reads : nat;
  sink : list (N * cell);
  sleeps : list Q;
  overruns : list Q
}.

(** [VariableUpdater.__init__]; [clock n] is what the [n]-th call of
    [time.time()] returns. *)
Definition VariableUpdater_init (clock : nat -> Q) : Playback :=
  mkPlayback 0 (clock 0%nat) 1 [] [] [].

(** [server.set_attribute_value(chan['opc_value'].nodeid, data[chan['id']][idx])]. *)
Definition write_value (data : DataFrame) (i : Z) (sink : list (N * cell)) (chan : OpcChannel)
    : result (list (N * cell)) :=
  column ← df_getitem data (chan_id chan);
  value ← series_getitem column i;
  Ok (sink ++ [(opc_value chan, value)]).

(** One round of the [while] loop of [VariableUpdater.run]. *)
Definition tick (clock : nat -> Q) (channel : list OpcChannel) (period : Q)
    (data : DataFrame) (st : Playback) : result Playback :=
  let nextCall := clock (clock_reads st) in
  sink ← for_each (write_value data (idx st)) (sink st) channel;
  let idx := idx st + 1 in
  let idx := if decide (idx > df_shape0 data) then 0 else idx in
  let nextCall := (nextCall + period)%Q in
  let sleepLength := (nextCall - clock (S (clock_reads st)))%Q in
  if Qlt_le_dec 0 sleepLength then
    Ok (mkPlayback idx nextCall (S (S (clock_reads st))) sink
          (sleeps st ++ [sleepLength]) (overruns st))
  else
    Ok (mkPlayback idx nextCall (S (S (clock_reads st))) sink
          (sleeps st) (overruns st ++ [Qabs sleepLength])).

(** [rounds] rounds of the loop from a given state. *)
Fixpoint ticks (clock : nat -> Q) (channel : list OpcChannel) (period : Q)
    (data : DataFrame) (rounds : nat) (st : Playback) : result Playback :=
  match rounds with
  | O => Ok st
  | S rounds' =>
      st' ← tick clock channel period data st;
      ticks clock channel period data rounds' st'
  end.

(** [VariableUpdater.run], up to the round in which the close event is
    seen: the cursor starts at 0 and the loop runs [rounds] times. *)
Definition run (clock : nat -> Q) (channel : list OpcChannel) (period : Q)
    (data : DataFrame) (rounds : nat) (st : Playback) : result Playback :=
  ticks clock channel period data rounds
    (mkPlayback 0 (_nextCall st) (clock_reads st) (sink st) (sleeps st) (overruns st)).

(** Every channel of a playback group has a full column in the table. *)
Definition group_in_table (channel : list OpcChannel) (data : DataFrame) : Prop :=
  ∀ chan, chan ∈ channel →
    ∃ column, df_column data (chan_id chan) = Some column ∧ length column = df_index data.

(** ** Concrete files and channels *)

Module Fixtures.
(** Libraries in which [np.repeat] refuses a float count and no header
    line parses as a date (every start time then comes from the reader). *)
Definition strict_libs : PyLibs :=
  {| np_repeat_float := fun _ _ => Raise TypeError;
     strptime := fun _ _ => Raise ValueError |}.

(** A numeric channel sampled at the period [clk]. *)
Definition numeric (clk : Q) (values : list Q) : ChannelReader :=
  mkChannelReader false (Some (mkArrayData clk values)) None.

(** A text channel with the given events. *)
Definition textual (events : list (Q * string)) : ChannelReader :=
  mkChannelReader true None (Some events).

Definition lookup_channel (chans : list (string * ChannelReader)) (name : string)
    : result ChannelReader :=
  match list_find (fun c => c.1 = name) chans with
  | Some (_, (_, r)) => Ok r
  | None => Raise RuntimeError
  end.

(** A complete, readable file whose channels are known by name only. *)
Definition recording (p : string) (clk : Q) (frames : Z) (start : Q)
    (chans : list (string * ChannelReader)) : IbaFile :=
  {| path := p; isfile := true; isCurrentPDA := false; Open_ok := true;
     info_clk := Ok clk; info_frames := Ok frames; GetStartTime := start;
     EnumerateChannels := (fun c => ("Id 0:0"%string, c.1)) <$> chans;
     QueryChannel := fun _ => Raise RuntimeError;
     QueryChannelByName := lookup_channel chans;
     raw_lines := Ok [] |}.

Definition file_A : IbaFile :=
  recording "A.dat" 1 2 0 [("x", numeric 1 [1; 2]); ("y", numeric 1 [3; 4])]%Q.

Definition file_B : IbaFile :=
  recording "B.dat" 1 2 10 [("x", numeric 1 [5; 6]); ("z", numeric 1 [7; 8])]%Q.

(** A file whose header cannot be queried. *)
Definition file_damaged : IbaFile :=
  {| path := "D.dat"; isfile := true; isCurrentPDA := false; Open_ok := true;
     info_clk := Raise RuntimeError; info_frames := Raise RuntimeError;
     GetStartTime := 20;
     EnumerateChannels := [];
     QueryChannel := fun _ => Raise RuntimeError;
     QueryChannelByName := fun _ => Raise RuntimeError;
     raw_lines := Raise FileNotFoundError |}.

(** A file the recorder is still writing: the frame count is the sentinel. *)
Definition file_unfinished : IbaFile :=
  recording "U.dat" 1 1000000000 0 [].

Definition text_AB : ChannelReader := textual [(0, "A"); (5, "B")]%Q.

Definition six_samples : ChannelReader := numeric 1 [10; 11; 12; 13; 14; 15]%Q.

Definition xyz : channels_arg := ChList [One "x"; One "y"; One "z"].
End Fixtures.

Module PlaybackFixtures.
(** A playback group of one channel over a three-row table. *)
Definition group : list OpcChannel := [mkOpcChannel "x" 7].

Definition three_rows : DataFrame :=
  mkDataFrame 3 [("Time", [Stamp 0; Stamp 1; Stamp 2]); ("x", [Num 10; Num 11; Num 12])]%Q.

(** A table of [n] rows for the channel ["x"]. *)
Definition rows (n : nat) : DataFrame :=
  mkDataFrame n [("x"%string, replicate n (Num 0))].

(** A clock for a period of one second on which the work of a round takes
    no time and every sleep wakes a tenth of a second late: with
    [VariableUpdater_init] taking reading 0 at time 0, round [k] reads
    [k * 11/10] twice. *)
Definition late_clock (n : nat) : Q :=
  (inject_Z (Z.of_nat ((n - 1) / 2)) * (11 # 10))%Q.

(** A clock on which every sleep wakes exactly on the deadline. *)
Definition exact_clock (n : nat) : Q :=
  inject_Z (Z.of_nat ((n - 1) / 2)).
End PlaybackFixtures.

(** ** What playback is expected to write *)



(** What the outside sees of the data in a playback state: the cursor and
    the values written so far. *)
Definition written (st : Playback) : Z * list (N * cell) := (idx st, sink st).

(** ** Discovery of files *)

(** A directory as [os.scandir] shows it: its path and its sub folders. *)
#[local] Unset Elimination Schemes.
Inductive Directory : Type :=
  | mkDirectory (dir_path : string) (sub_folders : list Directory).
#[local] Set Elimination Schemes.

Definition dir_path (d : Directory) : string :=
  match d with mkDirectory p _ => p end.

Definition sub_folders (d : Directory) : list Directory :=
  match d with mkDirectory _ subs => subs end.

(** What the file system answers. *)
Class OsLibs : Type := {
  (** [os.getcwd()], as a directory *)
  os_getcwd : Directory;
  (** [os.path.join(a, b)] *)
  os_path_join : string -> string -> string;
  (** [glob.glob(pattern)] *)
  glob_glob : string -> list string;
  (** the file behind a path *)
  file_at : string -> IbaFile
}.

Section Discovery.
Context `{os : OsLibs} `{libs : PyLibs}.

(** [getFiles] on a directory that is given; the sub folders are visited
    with the file type as it is after the removal of a leading dot. *)
Fixpoint getFiles_in (directory : Directory) (file_type file_name : string)
    (scan_sub_folders : bool) : list string :=
  match directory with
  | mkDirectory p subs =>
      let file_type :=
        if String.prefix "." file_type then py_str_from 1 file_type else file_type in
      let files_found :=
        glob_glob (os_path_join p (file_name +:+ "." +:+ file_type)) in
      if scan_sub_folders then
        files_found
        ++ mjoin ((fun sub_folder =>
                     getFiles_in sub_folder file_type file_name scan_sub_folders)
                    <$> subs)
      else files_found
  end.

(** [getFiles]; no directory means the current one. *)
Definition getFiles (directory : option Directory) (file_type file_name : string)
    (scan_sub_folders : bool) : list string :=
  getFiles_in (default os_getcwd directory) file_type file_name scan_sub_folders.

Definition getSortedIbaFiles (directory : Directory) (scan_sub_folders : bool)
    : list string :=
  let iba_files := getFiles (Some directory) "dat" "*" scan_sub_folders in
  sortIbaFiles (file_at <$> iba_files).

(** A directory and, recursively, its sub folders, each before its own sub
    folders. *)
Fixpoint all_directories (directory : Directory) : list Directory :=
  match directory with
  | mkDirectory p subs => directory :: mjoin (all_directories <$> subs)
  end.
End Discovery.

Module DiscoveryFixtures.
(** A folder [dat] with one file and a sub folder [dat/old] with another. *)
Definition tree : Directory := mkDirectory "dat" [mkDirectory "dat/old" []].

(** A file like [Fixtures.file_A] under another path and start time. *)
Definition dated (p : string) (start : Q) : IbaFile :=
  Fixtures.recording p 1 2 start [("x", Fixtures.numeric 1 [1; 2])]%Q.

Definition disk : OsLibs :=
  {| os_getcwd := tree;
     os_path_join := fun a b => (a +:+ "/" +:+ b)%string;
     glob_glob := fun pattern =>
       if decide (pattern = "dat/*.dat"%string) then ["dat/b.dat"%string]
       else if decide (pattern = "dat/old/*.dat"%string) then ["dat/old/a.dat"%string]
       else [];
     file_at := fun p =>
       if decide (p = "dat/old/a.dat"%string) then dated p 1 else dated p 2 |}.

(** Libraries whose [strptime] knows one date in the plain format. *)
Definition dated_libs : PyLibs :=
  {| np_repeat_float := fun _ _ => Raise TypeError;
     strptime := fun s fmt =>
       if decide (s = "01.01.1970 00:00:05"%string ∧ fmt = "%d.%m.%Y %H:%M:%S"%string)
       then Ok 5%Q else Raise ValueError |}.

(** A file whose second line is the start-time line. *)
Definition file_with_header : IbaFile :=
  {| path := "H.dat"; isfile := true; isCurrentPDA := false; Open_ok := true;
     info_clk := Ok 1%Q; info_frames := Ok 2; GetStartTime := 9;
     EnumerateChannels := [];
     QueryChannel := fun _ => Raise RuntimeError;
     QueryChannelByName := fun _ => Raise RuntimeError;
     raw_lines := Ok ["ibaPDA"; "starttime:01.01.1970 00:00:05 "; "frames:2"]%string |}.
End DiscoveryFixtures.

(** ** server.py: channels by module and by sample rate *)

(** A value of a channel-info dict: a string, an integer or [None]. *)
Inductive pyval : Type :=
  | PStr (s : string)
  | PInt (z : Z)
  | PNone.

#[global] Instance pyval_eq_dec : EqDecision pyval.
Proof. solve_decision. Defined.

(** [str(v)], as [str.format] inserts it. *)
Definition py_str (v : pyval) : string :=
  match v with
  | PStr s => s
  | PInt z => pretty z
  | PNone => "None"
  end.

(** [d[key]] on a dict: [KeyError] for a missing key. *)
Definition dict_getitem (d : gmap string pyval) (key : string) : result pyval :=
  match d !! key with
  | Some v => Ok v
  | None => Raise KeyError
  end.

(** [if key not in groups.keys(): groups[key] = list()] followed by
    [groups[key].append(chan)], on a dict that keeps the order of insertion. *)
Definition group_append {K} `{EqDecision K} (key : K) (chan : gmap string pyval)
    (groups : list (K * list (gmap string pyval))) : list (K * list (gmap string pyval)) :=
  if decide (key ∈ groups.*1)
  then (fun kv : K * list (gmap string pyval) =>
          if decide (kv.1 = key) then (kv.1, kv.2 ++ [chan]) else kv) <$> groups
  else groups ++ [(key, [chan])].

(** [chan['opc_obj'] = None; chan['opc_value'] = None]. *)
Definition with_opc_fields (chan : gmap string pyval) : gmap string pyval :=
  <["opc_value" := PNone]> (<["opc_obj" := PNone]> chan).

(** One round of the loop of [get_file_info]; the state is the pair of the
    dicts [modules] and [channels]. *)
Definition file_info_step
    (st : list (string * list (gmap string pyval)) * list (pyval * list (gmap string pyval)))
    (item : string * gmap string pyval)
    : result (list (string * list (gmap string pyval))
              * list (pyval * list (gmap string pyval))) :=
  let '(modules, channels) := st in
  let '(name, chan) := item in
  type ← dict_getitem chan "type";
  if bool_decide (type = PStr "text") || bool_decide (chan !! "$PDA_Tbase"%string = None)
  then Ok st
  else
    let chan := with_opc_fields chan in
    module_no ← dict_getitem chan "module_no";
    module ← dict_getitem chan "module";
    let full_module := (py_str module_no +:+ " " +:+ py_str module)%string in
    let modules := group_append full_module chan modules in
    cur_tbase ← dict_getitem chan "$PDA_Tbase";
    let channels := group_append cur_tbase chan channels in
    Ok (modules, channels).

(** [IbaToUaServer.get_file_info], from the dict that [get_channel_info]
    returned for the file (its items in order): the dicts [modules] and
    [channels]. *)
Definition get_file_info (channel_info : list (string * gmap string pyval))
    : result (list (string * list (gmap string pyval))
              * list (pyval * list (gmap string pyval))) :=
  for_each file_info_step ([], []) channel_info.

(** The channels [get_file_info] keeps: not textual and with a sample rate. *)
Definition playable (chan : gmap string pyval) : Prop :=
  chan !! "type"%string ≠ Some (PStr "text") ∧ chan !! "$PDA_Tbase"%string ≠ None.

#[global] Instance playable_dec (chan : gmap string pyval) : Decision (playable chan).
Proof. unfold playable. apply _. Defined.

(** The sample rate recorded in a channel dict. *)
Definition rate_of (chan : gmap string pyval) : option pyval := chan !! "$PDA_Tbase"%string.

Module ServerFixtures.
Definition analog (name : string) (rate : string) : gmap string pyval :=
  {[ "type"%string := PStr "analog"; "name"%string := PStr name;
     "module_no"%string := PInt 3; "module"%string := PStr "Drive";
     "$PDA_Tbase"%string := PStr rate ]}.

Definition channel_info : list (string * gmap string pyval) :=
  [("a", analog "a" "0.01"); ("b", analog "b" "0.1"); ("c", analog "c" "0.01");
   ("t", {[ "type"%string := PStr "text"; "module_no"%string := PInt 3;
            "module"%string := PStr "Drive"; "$PDA_Tbase"%string := PStr "0.01" ]})]%string.
End ServerFixtures.

(** * Properties *)

(** ** Results *)

Lemma rbind_Ok {A B} (m : result A) (k : A -> result B) (b : B) :
  rbind m k = Ok b ↔ ∃ a, m = Ok a ∧ k a = Ok b.
Proof.
  destruct m as [a|e]; simpl; split.
  - intros Hk. by exists a.
  - by intros (a' & [= <-] & Hk).
  - discriminate.
  - by intros (a' & [=] & _).
Qed.

Lemma Ok_inj {A} (a b : A) : Ok a = Ok b → a = b.
Proof. by intros [= ->]. Qed.

Lemma rbind_Raise {A B} (m : result A) (k : A -> result B) (e : exn) :
  m = Raise e → rbind m k = Raise e.
Proof. by intros ->. Qed.

(** Splitting a successful sequence into its successful steps. *)
Ltac inv_result :=
  repeat match goal with
    | H : rbind _ _ = Ok _ |- _ =>
        let a := fresh "a" in
        let Ha := fresh "Ha" in
        apply rbind_Ok in H as (a & Ha & H)
    | H : rmap _ _ = Ok _ |- _ => unfold rmap in H
    | H : Ok _ = Ok _ |- _ => apply Ok_inj in H
    | H : Raise _ = Ok _ |- _ => discriminate H
    end.

(** ** Loops *)

Lemma for_each_unchanged {A S} (body : S -> A -> result S) (st : S) (l : list A) :
  (∀ x, x ∈ l → body st x = Ok st) → for_each body st l = Ok st.
Proof.
  induction l as [|x l IH]; intros Hbody; simpl; [done|].
  rewrite Hbody by left. apply IH. intros y Hy. apply Hbody. by right.
Qed.

Lemma for_each_app {A S} (body : S -> A -> result S) (st : S) (l1 l2 : list A) :
  for_each body st (l1 ++ l2) = (st' ← for_each body st l1; for_each body st' l2).
Proof.
  revert st. induction l1 as [|x l1 IH]; intros st; simpl; [done|].
  destruct (body st x); simpl; [apply IH|done].
Qed.

Lemma elem_of_py_enumerate {A} (l : list A) (i : nat) (x : A) :
  (i, x) ∈ py_enumerate l ↔ l !! i = Some x.
Proof.
  unfold py_enumerate. rewrite elem_of_lookup_imap. split.
  - intros (j & y & [= -> ->] & Hy). done.
  - intros Hx. by exists i, x.
Qed.

(** ** Text channels *)

Section TextChannel.
Implicit Types (channel_data : list (Q * string)) (clk : Q) (frames : Z).

(** Inside the event loop the end of an event's range is computed from
    the event itself, so the range is empty and nothing is written. *)
Lemma fill_event_writes_nothing channel_data clk frames processed_data idx text_data :
  channel_data !! idx = Some text_data →
  Qeq_bool clk 0 = false →
  fill_event channel_data clk frames processed_data (idx, text_data) = Ok processed_data.
Proof.
  intros Hidx Hclk. unfold fill_event, py_truediv. rewrite Hclk, Hidx. simpl.
  destruct (decide _) as [_|Hge].
  - simpl. unfold py_range. by rewrite Z.sub_diag.
  - exfalso. apply Hge. by eapply lookup_lt_Some.
Qed.

(** Whatever the events, the text column read at the native rate is
    blank: [frames] empty strings. *)
Lemma read_text_channel_blank chan_reader channel_data clk frames :
  QueryTextData chan_reader = Some channel_data →
  Qeq_bool clk 0 = false →
  __read_text_channel__ chan_reader 0 clk frames
  = Ok (replicate (Z.to_nat frames) (Str EmptyString)).
Proof.
  intros Hdata Hclk. unfold __read_text_channel__. rewrite Hdata.
  rewrite for_each_unchanged.
  - simpl. unfold py_list_mul. by rewrite fmap_replicate.
  - intros [idx text_data] Hin. apply elem_of_py_enumerate in Hin.
    by apply fill_event_writes_nothing.
Qed.
End TextChannel.

(** C1 (the code departs from it): a text channel given by transition events
    is to be expanded so that each value is held until the next event.  On the
    events (0,"A"), (5,"B") with 8 frames, clock 1 and the native timebase,
    [__read_text_channel__] returns 8 empty strings, not A,A,A,A,A,B,B,B. *)
Theorem C1_text_expansion_returns_blanks :
  __read_text_channel__ Fixtures.text_AB 0 1 8 = Ok (replicate 8 (Str ""))
  ∧ __read_text_channel__ Fixtures.text_AB 0 1 8
    ≠ Ok (Str <$> ["A"; "A"; "A"; "A"; "A"; "B"; "B"; "B"]%string).
Proof.
  assert (Hrun : __read_text_channel__ Fixtures.text_AB 0 1 8 = Ok (replicate 8 (Str ""))).
  { by apply (read_text_channel_blank _ [(0, "A"); (5, "B")]%Q%string). }
  split; [exact Hrun|]. rewrite Hrun. discriminate.
Qed.

(** ** Channel declarations *)

(** The list form of a declaration never keeps an empty channel string. *)
Lemma declaration_list_drops_empty iba_file l names delimiter channels names' :
  __declaration_check__ iba_file (ChList l) names delimiter = Ok (channels, names') →
  One EmptyString ∉ channels.
Proof.
  unfold __declaration_check__. intros Hcheck.
  destruct (match names with NmStr s => _ | _ => _ end) as [names0|]; simpl in Hcheck; [|done].
  assert (channels = filter (fun chn => chn ≠ One EmptyString) l) as ->.
  { destruct names0; simpl in Hcheck; try destruct (decide _);
      inv_result; congruence. }
  rewrite list_elem_of_filter. intros [Hne _]. by apply Hne.
Qed.

(** C8 (the code departs from it): a declaration given as one delimited
    string is to be split, trimmed and freed of empty tokens.  For "a,,b" with
    delimiter "," [__declaration_check__] keeps the empty token: the
    identities are a, the empty string, b. *)
Theorem C8_string_declaration_keeps_empty_token :
  ∃ names,
    __declaration_check__ Fixtures.file_A
      (ChStr "a,,b") NmNone "," = Ok ([One "a"; One ""; One "b"], names)
    ∧ One ""%string ∈ [One "a"; One ""; One "b"]
    ∧ [One "a"; One ""; One "b"] ≠ [One "a"; One "b"].
Proof.
  eexists. split; [vm_compute; reflexivity|]. split; [|discriminate].
  apply list_elem_of_In. right. by left.
Qed.

(** ** Tolerant extraction *)

Section Tolerant.
Context `{libs : PyLibs}.
Implicit Types (reader : FileReader) (tbase clk : Q) (frames : Z) (names : list string).

(** A single channel that cannot be resolved is passed over: the table
    and the pending data are as before. *)
Lemma read_entry_skips_unresolved_channel reader tbase clk frames names st num chn :
  __read_channel__ reader (ChannelStr chn) tbase clk frames = Raise ChannelNotFoundError →
  read_entry reader tbase clk frames true names st (num, One chn) = Ok st.
Proof. intros Hread. destruct st as [df chan_data]. simpl. by rewrite Hread. Qed.

(** A group none of whose members resolves is not passed over: the loop
    goes on to store whatever [chan_data] is bound to at that point. *)
Lemma read_entry_stores_for_unresolved_group reader tbase clk frames names df chan_data num alts :
  read_alternatives reader tbase clk frames alts = Ok None →
  read_entry reader tbase clk frames true names (df, chan_data) (num, Alt alts)
  = add_channel df names num chan_data.
Proof. intros Hread. simpl. by rewrite Hread. Qed.

(** With nothing bound yet, that is a [DataStackingError]. *)
Lemma add_channel_unbound df names num :
  add_channel df names num None = Raise DataStackingError.
Proof. done. Qed.
End Tolerant.

(** C6 (the code departs from it): in tolerant mode an alternative group
    none of whose members resolves is to be skipped, leaving the other columns
    as they are.  On a file with channels x and y, the request x, [p, q], y
    under the names x, g, y yields a column g holding the samples of x; the
    request [p, q], y fails with [DataStackingError]. *)
Theorem C6_unresolved_group_is_not_skipped :
  (∃ df,
      readIbaFile (libs:=Fixtures.strict_libs) Fixtures.file_A
        (ChList [One "x"; Alt ["p"; "q"]; One "y"]) (NmList ["x"; "g"; "y"]) 0 "," true true
      = Ok df
      ∧ df_names df = ["Time"; "x"; "g"; "y"]%string
      ∧ df_column df "g" = Some [Num 1; Num 2]
      ∧ df_column df "x" = Some [Num 1; Num 2])
  ∧ readIbaFile (libs:=Fixtures.strict_libs) Fixtures.file_A
      (ChList [Alt ["p"; "q"]; One "y"]) (NmList ["g"; "y"]) 0 "," true true
    = Raise DataStackingError.
Proof.
  split; [|vm_compute; reflexivity].
  eexists. split; [vm_compute; reflexivity|]. by vm_compute.
Qed.

(** ** The playback cursor *)

Section Cursor.
Variables (clock : nat -> Q) (channel : list OpcChannel) (period : Q) (data : DataFrame).

Lemma write_values_in_range (i : Z) (sink0 : list (N * cell)) :
  group_in_table channel data → 0 <= i < df_shape0 data →
  ∃ sink', for_each (write_value data i) sink0 channel = Ok sink'.
Proof.
  unfold group_in_table. intros Hgroup Hi. revert sink0.
  induction channel as [|chan chans IH]; intros sink0; simpl; [by eexists|].
  destruct (Hgroup chan) as (column & Hcol & Hlen); [by left|].
  unfold write_value at 1, df_getitem, series_getitem. rewrite Hcol. simpl.
  destruct (decide (0 <= i)) as [_|]; [|lia].
  destruct (lookup_lt_is_Some_2 column (Z.to_nat i)) as [c Hc].
  { unfold df_shape0 in Hi. lia. }
  rewrite Hc. simpl. apply IH. intros chan' Hin. apply Hgroup. by right.
Qed.

Lemma tick_in_range (st : Playback) :
  group_in_table channel data → 0 <= idx st < df_shape0 data →
  ∃ st', tick clock channel period data st = Ok st' ∧ idx st' = idx st + 1.
Proof.
  intros Hgroup Hi. unfold tick.
  destruct (write_values_in_range (idx st) (sink st) Hgroup Hi) as [sink' ->]. simpl.
  destruct (decide (idx st + 1 > df_shape0 data)) as [|_]; [lia|].
  destruct (Qlt_le_dec _ _); by eexists.
Qed.

(** From the start of the table the cursor walks through every row and
    then takes the value [len], one past the last row. *)
Lemma ticks_cursor_reaches_length (rounds : nat) (st : Playback) :
  group_in_table channel data → 0 <= idx st → idx st + Z.of_nat rounds <= df_shape0 data →
  ∃ st', ticks clock channel period data rounds st = Ok st'
         ∧ idx st' = idx st + Z.of_nat rounds.
Proof.
  intros Hgroup. revert st. induction rounds as [|rounds IH]; intros st Hlo Hhi; simpl.
  - exists st. split; [done|lia].
  - destruct (tick_in_range st Hgroup) as (st1 & -> & Hidx); [lia|]. simpl.
    destruct (IH st1) as (st' & Hrun & Hidx'); [lia..|].
    exists st'. split; [done|lia].
Qed.

(** With the cursor at [len], the first write of the round looks up a row
    that is not there. *)
Lemma tick_at_length_raises (st : Playback) (chan : OpcChannel) (chans : list OpcChannel) :
  channel = chan :: chans → group_in_table channel data → idx st = df_shape0 data →
  tick clock channel period data st = Raise KeyError.
Proof.
  intros Hchannel Hgroup Hidx. unfold tick.
  destruct (Hgroup chan) as (column & Hcol & Hlen); [rewrite Hchannel; by left|].
  rewrite Hchannel. simpl. unfold write_value, df_getitem, series_getitem.
  rewrite Hcol. simpl. destruct (decide (0 <= idx st)) as [_|]; [|by simpl].
  rewrite (lookup_ge_None_2 column); [done|]. unfold df_shape0 in Hidx. lia.
Qed.
End Cursor.

(** C5 (the code departs from it): the cursor is to stay within
    [0 <= cursor < len] at every write.  The loop resets it only when it
    exceeds [len], so on a three-row table the cursor is 3 after three rounds
    and the fourth round dies on the write with [KeyError]. *)
Theorem C5_cursor_leaves_the_table :
  let st0 := VariableUpdater_init PlaybackFixtures.exact_clock in
  let play rounds :=
    run PlaybackFixtures.exact_clock PlaybackFixtures.group 1
      PlaybackFixtures.three_rows rounds st0 in
  df_shape0 PlaybackFixtures.three_rows = 3
  ∧ rmap idx (play 3%nat) = Ok 3
  ∧ play 4%nat = Raise KeyError.
Proof. by vm_compute. Qed.

(** ** File validation *)

(** C9: when the header queries succeed, a frame count of 1 000 000 000 or more
    makes [__check_file__] fail with [IbaFileNotCompleteError] (hence not
    with [IbaFileDamagedError]), and a smaller one makes it return the pair
    (clock period, frame count).  The file queried is the one the reader
    has open, or [iba_file] itself when the reader is closed and can open it. *)
Theorem C9_check_file_classifies_frame_count
    (reader : FileReader) (iba_file queried : IbaFile) (clk : Q) (frames : Z) :
  reader = Some queried ∨ (reader = None ∧ Open_ok iba_file = true ∧ queried = iba_file) →
  info_clk queried = Ok clk →
  info_frames queried = Ok frames →
  (1000000000 <= frames →
     (__check_file__ reader iba_file).1 = Raise IbaFileNotCompleteError
     ∧ (__check_file__ reader iba_file).1 ≠ Raise IbaFileDamagedError)
  ∧ (frames < 1000000000 → (__check_file__ reader iba_file).1 = Ok (clk, frames)).
Proof.
  intros Hreader Hclk Hframes. unfold __check_file__.
  assert ((if negb (reader_IsOpen reader) then reader_Open iba_file else Ok reader)
          = Ok (Some queried)) as ->.
  { destruct Hreader as [->|(-> & Hopen & ->)]; [done|].
    simpl. unfold reader_Open. by rewrite Hopen. }
  simpl. rewrite Hclk. simpl. rewrite Hframes. simpl.
  split; intros Hcount.
  - destruct (decide (frames >= 1000000000)) as [_|]; [|lia]. by split.
  - destruct (decide (frames >= 1000000000)) as [|_]; [lia|]. done.
Qed.

(** The sentinel count on an open file, and a two-frame file. *)
Lemma C9_check_file_witness :
  (__check_file__ (Some Fixtures.file_unfinished) Fixtures.file_unfinished).1
  = Raise IbaFileNotCompleteError
  ∧ (__check_file__ (Some Fixtures.file_A) Fixtures.file_A).1 = Ok (1%Q, 2).
Proof.
  split.
  - apply (C9_check_file_classifies_frame_count
             (Some Fixtures.file_unfinished) Fixtures.file_unfinished
             Fixtures.file_unfinished 1 1000000000);
      [by left|reflexivity|reflexivity|lia].
  - apply (C9_check_file_classifies_frame_count
             (Some Fixtures.file_A) Fixtures.file_A Fixtures.file_A 1 2);
      [by left|reflexivity|reflexivity|lia].
Defined.

(** ** Channel existence *)

(** C10: [is_channel] always returns a boolean and never raises; the boolean
    is [True] exactly when the file is not being written, can be opened, and
    [__get_iba_channel_reader__] returns a reader for the channel on it. *)
Theorem C10_is_channel_total (chan : channel_ref) (file : IbaFile) :
  ∃ b : bool,
    is_channel chan file = Ok b
    ∧ (b = true ↔
         isCurrentPDA file = false ∧ Open_ok file = true
         ∧ ∃ chanReader, __get_iba_channel_reader__ chan (Some file) = Ok chanReader).
Proof.
  unfold is_channel, ibaReader, reader_Open.
  destruct (isCurrentPDA file).
  { exists false. split; [done|]. split; [done|]. by intros [? _]. }
  destruct (Open_ok file); simpl.
  - destruct (__get_iba_channel_reader__ chan (Some file)) as [r|e]; simpl.
    + exists true. split; [done|]. split; [|done]. intros _. repeat split. by exists r.
    + exists false. split; [done|]. split; [done|]. by intros (_ & _ & r & ?).
  - exists false. split; [by destruct (isfile file)|]. split; [done|]. by intros (_ & ? & _).
Qed.

(** ** Decimation *)






Lemma Qeq_bool_false (a b : Q) : ¬ (a == b)%Q → Qeq_bool a b = false.
Proof.
  intros Hne. destruct (Qeq_bool a b) eqn:E; [|done].
  exfalso. apply Hne. by apply Qeq_bool_iff.
Qed.




(** ** The playback deadline *)

Section Deadline.
Variables (clock : nat -> Q) (channel : list OpcChannel) (period : Q) (data : DataFrame).

(** A round sets the deadline from the clock reading it starts with, and
    reads the clock twice. *)
Lemma tick_deadline (st st' : Playback) :
  tick clock channel period data st = Ok st' →
  _nextCall st' = (clock (clock_reads st) + period)%Q
  ∧ clock_reads st' = S (S (clock_reads st)).
Proof.
  unfold tick. intros Htick. inv_result.
  destruct (Qlt_le_dec _ _); inv_result; subst st'; split; reflexivity.
Qed.

Lemma ticks_S (rounds : nat) (st : Playback) :
  ticks clock channel period data (S rounds) st
  = (st' ← tick clock channel period data st; ticks clock channel period data rounds st').
Proof. reflexivity. Qed.

Lemma ticks_snoc (rounds : nat) (st : Playback) :
  ticks clock channel period data (S rounds) st
  = (st' ← ticks clock channel period data rounds st; tick clock channel period data st').
Proof.
  revert st. induction rounds as [|rounds IH]; intros st.
  - simpl. by destruct (tick clock channel period data st).
  - rewrite ticks_S, (ticks_S rounds st).
    destruct (tick clock channel period data st) as [st1|e]; simpl; [apply IH|done].
Qed.

Lemma ticks_clock_reads (rounds : nat) (st st' : Playback) :
  ticks clock channel period data rounds st = Ok st' →
  clock_reads st' = (clock_reads st + 2 * rounds)%nat.
Proof.
  revert st. induction rounds as [|rounds IH]; intros st Hrun; simpl in Hrun.
  - inv_result. subst. lia.
  - inv_result. apply tick_deadline in Ha as [_ Hreads].
    apply IH in Hrun. lia.
Qed.
End Deadline.

(** C2 (amended): in every round the deadline is set to the time read at the
    start of that round plus the sample period.  After [rounds + 1] rounds it
    is the reading that opened the last round plus the period; it exceeds the
    previous deadline by exactly the period if and only if that round started
    exactly on the previous deadline. *)
Theorem C2_deadline_is_round_start_plus_period
    (clock : nat -> Q) (channel : list OpcChannel) (period : Q) (data : DataFrame)
    (rounds : nat) (st prev st' : Playback) :
  run clock channel period data rounds st = Ok prev →
  run clock channel period data (S rounds) st = Ok st' →
  clock_reads prev = (clock_reads st + 2 * rounds)%nat
  ∧ _nextCall st' = (clock (clock_reads prev) + period)%Q
  ∧ ((_nextCall st' == _nextCall prev + period)%Q
     ↔ (clock (clock_reads prev) == _nextCall prev)%Q).
Proof.
  unfold run. intros Hprev Hlast.
  rewrite ticks_snoc, Hprev in Hlast. simpl in Hlast.
  apply tick_deadline in Hlast as [Hdeadline _].
  apply ticks_clock_reads in Hprev. simpl in Hprev.
  split; [done|]. split; [done|]. rewrite Hdeadline. split; intros Heq; lra.
Qed.

(** Two rounds on the clock whose sleeps wake late. *)
Lemma C2_deadline_witness :
  ∃ prev st',
    run PlaybackFixtures.late_clock PlaybackFixtures.group 1 (PlaybackFixtures.rows 32) 1
      (VariableUpdater_init PlaybackFixtures.late_clock) = Ok prev
    ∧ run PlaybackFixtures.late_clock PlaybackFixtures.group 1 (PlaybackFixtures.rows 32) 2
        (VariableUpdater_init PlaybackFixtures.late_clock) = Ok st'
    ∧ _nextCall st' = (PlaybackFixtures.late_clock (clock_reads prev) + 1)%Q.
Proof.
  eexists. eexists.
  split; [vm_compute; reflexivity|]. split; [vm_compute; reflexivity|].
  eapply (C2_deadline_is_round_start_plus_period PlaybackFixtures.late_clock
            PlaybackFixtures.group 1 (PlaybackFixtures.rows 32) 1
            (VariableUpdater_init PlaybackFixtures.late_clock));
    vm_compute; reflexivity.
Defined.

(** C2 as stated fails.  Period 1, no work in a round, every sleep waking a
    tenth late, so that no round overruns: the deadline after the second round
    is 2.1, not the first deadline 1 plus the period; after 20 rounds the
    deadline is 21.9 and the clock reads 22, more than one period beyond
    the nominal 20. *)
Lemma C2_counterexample :
  let clock := PlaybackFixtures.late_clock in
  let play rounds :=
    run clock PlaybackFixtures.group 1 (PlaybackFixtures.rows 32) rounds
      (VariableUpdater_init clock) in
  ∃ st1 st2 st20,
    play 1%nat = Ok st1 ∧ play 2%nat = Ok st2 ∧ play 20%nat = Ok st20
    ∧ ¬ (_nextCall st2 == _nextCall st1 + 1)%Q
    ∧ overruns st20 = []
    ∧ (clock 0%nat + 20 * 1 + 1 < _nextCall st20)%Q
    ∧ (clock 0%nat + 20 * 1 + 1 < clock (clock_reads st20))%Q.
Proof.
  do 3 eexists.
  split; [vm_compute; reflexivity|]. split; [vm_compute; reflexivity|].
  split; [vm_compute; reflexivity|].
  split; [by vm_compute|]. split; [by vm_compute|]. split; by vm_compute.
Qed.

(** ** Ordering and stacking of files *)

Lemma insert_by_perm {A} (key : A -> Q) (x : A) (l : list A) :
  insert_by key x l ≡ₚ x :: l.
Proof.
  induction l as [|y l IH]; simpl; [done|].
  destruct (Qle_bool (key x) (key y)); [done|].
  rewrite IH. apply Permutation_swap.
Qed.

Lemma py_sorted_perm {A} (key : A -> Q) (l : list A) : py_sorted key l ≡ₚ l.
Proof.
  unfold py_sorted. induction l as [|x l IH]; simpl; [done|].
  by rewrite insert_by_perm, IH.
Qed.

Section Files.
Context `{libs : PyLibs}.

Lemma dict_set_keys (key : string) (value : Q) (d : list (string * Q)) (k : string) :
  k ∈ (dict_set key value d).*1 ↔ k = key ∨ k ∈ d.*1.
Proof.
  unfold dict_set. destruct (decide (key ∈ d.*1)) as [Hin|Hnotin].
  - assert (((fun kv : string * Q => if decide (kv.1 = key) then (key, value) else kv)
               <$> d).*1 = d.*1) as ->.
    { rewrite <- list_fmap_compose. apply list_fmap_ext.
      intros i [k' v'] _. simpl. by destruct (decide (k' = key)) as [->|]. }
    split; [by right|]. by intros [->|].
  - rewrite fmap_app, elem_of_app. simpl. rewrite list_elem_of_singleton. tauto.
Qed.

(** The keys of the dict built by [sortIbaFiles]. *)
Lemma sort_dict_keys (iba_files : list IbaFile) (d0 : list (string * Q)) (p : string) :
  p ∈ (foldl (fun sort_dict iba_file =>
                match get_start_time iba_file with
                | Ok t => dict_set (path iba_file) t sort_dict
                | Raise _ => sort_dict
                end) d0 iba_files).*1
  ↔ p ∈ d0.*1
    ∨ ∃ f, f ∈ iba_files ∧ path f = p ∧ is_Ok (get_start_time f) = true.
Proof.
  revert d0. induction iba_files as [|f files IH]; intros d0; simpl.
  - split; [by left|]. intros [|(f & Hf & _)]; [done|]. by apply elem_of_nil in Hf.
  - rewrite IH. destruct (get_start_time f) as [t|e] eqn:Hstart.
    + rewrite dict_set_keys. split.
      * intros [[->|Hin]|(g & Hg & Hp & Hok)].
        -- right. exists f. rewrite Hstart. split; [by left|done].
        -- by left.
        -- right. exists g. split; [by right|done].
      * intros [Hin|(g & Hg & Hp & Hok)]; [left; by right|].
        apply elem_of_cons in Hg as [->|Hg]; [left; by left|].
        right. by exists g.
    + split.
      * intros [Hin|(g & Hg & Hp & Hok)]; [by left|].
        right. exists g. split; [by right|done].
      * intros [Hin|(g & Hg & Hp & Hok)]; [by left|].
        apply elem_of_cons in Hg as [->|Hg].
        -- rewrite Hstart in Hok. discriminate.
        -- right. by exists g.
Qed.

(** Ordering keeps exactly the files whose start time could be read. *)
Lemma sortIbaFiles_keeps_readable (iba_files : list IbaFile) (p : string) :
  p ∈ sortIbaFiles iba_files
  ↔ ∃ f, f ∈ iba_files ∧ path f = p ∧ is_Ok (get_start_time f) = true.
Proof.
  unfold sortIbaFiles. rewrite py_sorted_perm, sort_dict_keys. simpl.
  split; [|by right]. intros [Hnil|]; [|done]. by apply elem_of_nil in Hnil.
Qed.

Section Stacking.
Variables (channels : channels_arg) (names : names_arg) (tbase : Q) (delimiter : string).

(** The first loop of [readIbaFiles] gathers the tables in file order. *)
Lemma collect_tables (iba_file_list : list IbaFile) (dfs : list DataFrame)
    (acc : list DataFrame * list string) :
  Forall2 (fun file df =>
             readIbaFile file channels names tbase delimiter true true = Ok df)
    iba_file_list dfs →
  for_each (collect channels names tbase delimiter) acc iba_file_list
  = Ok (acc.1 ++ dfs, acc.2 ++ mjoin (df_names <$> dfs)).
Proof.
  intros Hread. revert acc.
  induction Hread as [|file df files dfs Hfile _ IH]; intros acc; simpl.
  - rewrite !app_nil_r. by destruct acc.
  - unfold collect at 1. rewrite Hfile. simpl. rewrite IH. simpl.
    by rewrite <- !app_assoc.
Qed.

(** The first file that cannot be read ends the batch with its
    exception. *)
Lemma readIbaFiles_propagates (before after : list IbaFile) (f : IbaFile) (e : exn) :
  Forall (fun g => is_Ok (readIbaFile g channels names tbase delimiter true true) = true)
    before →
  readIbaFile f channels names tbase delimiter true true = Raise e →
  readIbaFiles (before ++ f :: after) channels names tbase delimiter = Raise e.
Proof.
  intros Hbefore Hf. unfold readIbaFiles.
  apply rbind_Raise. rewrite for_each_app.
  assert (∃ dfs, Forall2 (fun file df =>
            readIbaFile file channels names tbase delimiter true true = Ok df)
            before dfs) as [dfs Hdfs].
  { induction Hbefore as [|g before Hg _ [dfs IH]]; [by exists []|].
    destruct (readIbaFile g channels names tbase delimiter true true) as [df|] eqn:Hread;
      [|done].
    exists (df :: dfs). by constructor. }
  rewrite (collect_tables before dfs _ Hdfs). simpl.
  unfold collect at 1. by rewrite Hf.
Qed.
End Stacking.
End Files.

(** C4 (amended): ordering the files ([sortIbaFiles]) catches the failure of
    a single file and leaves that file out, the others still being ordered;
    stacking ([readIbaFiles]) tolerates unresolved channels only: the first
    file whose extraction raises ends the batch with that exception. *)
Theorem C4_single_file_failure_ends_stacking `{libs : PyLibs} :
  (∀ (iba_files : list IbaFile) (p : string),
      p ∈ sortIbaFiles iba_files
      ↔ ∃ f, f ∈ iba_files ∧ path f = p ∧ is_Ok (get_start_time f) = true)
  ∧ (∀ (before after : list IbaFile) (f : IbaFile) channels names tbase delimiter (e : exn),
       Forall (fun g => is_Ok (readIbaFile g channels names tbase delimiter true true) = true)
         before →
       readIbaFile f channels names tbase delimiter true true = Raise e →
       readIbaFiles (before ++ f :: after) channels names tbase delimiter = Raise e).
Proof.
  split.
  - apply sortIbaFiles_keeps_readable.
  - intros. by apply readIbaFiles_propagates.
Qed.

(** A damaged file between two good ones, for stacking and for ordering. *)
Lemma C4_single_file_failure_witness :
  readIbaFiles (libs:=Fixtures.strict_libs)
    ([Fixtures.file_A] ++ Fixtures.file_damaged :: [Fixtures.file_B])
    Fixtures.xyz (NmList ["x"; "y"; "z"]) 0 "," = Raise IbaFileDamagedError
  ∧ ("D.dat"%string ∉ sortIbaFiles (libs:=Fixtures.strict_libs)
                       [Fixtures.file_B; Fixtures.file_damaged; Fixtures.file_A]).
Proof.
  destruct (C4_single_file_failure_ends_stacking (libs:=Fixtures.strict_libs))
    as [Hsort Hstack].
  split.
  - apply Hstack; [|vm_compute; reflexivity].
    constructor; [vm_compute; reflexivity|constructor].
  - intros Hin. apply Hsort in Hin as (f & Hf & Hpath & Hok).
    apply list_elem_of_In in Hf.
    destruct Hf as [<-|[<-|[<-|[]]]]; vm_compute in Hpath, Hok; discriminate.
Defined.

(** C4 as stated fails: with a damaged file between two good ones the batch
    call raises [IbaFileDamagedError], although the two good files alone
    stack into a table. *)
Lemma C4_counterexample :
  readIbaFiles (libs:=Fixtures.strict_libs)
    [Fixtures.file_A; Fixtures.file_damaged; Fixtures.file_B]
    Fixtures.xyz (NmList ["x"; "y"; "z"]) 0 "," = Raise IbaFileDamagedError
  ∧ is_Ok (readIbaFiles (libs:=Fixtures.strict_libs)
             [Fixtures.file_A; Fixtures.file_B]
             Fixtures.xyz (NmList ["x"; "y"; "z"]) 0 ",") = true
  ∧ readIbaFile (libs:=Fixtures.strict_libs) Fixtures.file_damaged
      Fixtures.xyz (NmList ["x"; "y"; "z"]) 0 "," true true = Raise IbaFileDamagedError.
Proof. by vm_compute. Qed.

(** ** Stacked tables *)

Lemma find_column_None (name : string) (cols : list (string * list cell)) :
  find_column name cols = None ↔ name ∉ cols.*1.
Proof.
  induction cols as [|[n v] cols IH]; simpl.
  - split; [intros _; apply not_elem_of_nil|done].
  - rewrite not_elem_of_cons. destruct (decide (n = name)) as [->|Hne].
    + split; [done|]. by intros [? _].
    + rewrite IH. split; [by intros ?; split|by intros [_ ?]].
Qed.

Lemma find_column_app (name : string) (cols1 cols2 : list (string * list cell)) :
  find_column name (cols1 ++ cols2)
  = match find_column name cols1 with
    | Some v => Some v
    | None => find_column name cols2
    end.
Proof.
  induction cols1 as [|[n v] cols1 IH]; simpl; [done|].
  by destruct (decide (n = name)).
Qed.

Lemma find_column_generated (name : string) (f : string -> list cell) (l : list string) :
  name ∈ l → find_column name ((fun n => (n, f n)) <$> l) = Some (f name).
Proof.
  induction l as [|n l IH]; simpl; [by intros ?%elem_of_nil|].
  intros Hin. destruct (decide (n = name)) as [->|Hne]; [done|].
  apply IH. by apply elem_of_cons in Hin as [->|].
Qed.

(** Under distinct labels a column is found at its position. *)
Lemma find_column_at (cols : list (string * list cell)) (j : nat) (name : string)
    (v : list cell) :
  NoDup cols.*1 → cols !! j = Some (name, v) → find_column name cols = Some v.
Proof.
  revert j. induction cols as [|[n w] cols IH]; intros j Hnodup Hj; [done|].
  simpl in *. apply NoDup_cons in Hnodup as [Hfresh Hnodup].
  destruct j as [|j]; simpl in Hj.
  - injection Hj as -> ->. by rewrite decide_True.
  - destruct (decide (n = name)) as [->|Hne]; [|by eapply IH].
    exfalso. apply Hfresh. apply list_elem_of_fmap. exists (name, v).
    split; [done|]. by eapply list_elem_of_lookup_2.
Qed.

Lemma set_column_fresh (name : string) (vals : list cell) (cols : list (string * list cell)) :
  name ∉ cols.*1 → set_column name vals cols = cols ++ [(name, vals)].
Proof. intros Hfresh. unfold set_column. by rewrite decide_False. Qed.

(** Adding columns of nulls under labels the table lacks. *)
Lemma fill_fresh_columns (ms : list string) (df : DataFrame) :
  NoDup ms → (∀ m, m ∈ ms → m ∉ df_names df) →
  foldl (fun df column => df_setitem_scalar df column Null) df ms
  = mkDataFrame (df_index df)
      (df_columns df ++ ((fun m => (m, replicate (df_index df) Null)) <$> ms)).
Proof.
  revert df. induction ms as [|m ms IH]; intros df Hnodup Hfresh; simpl.
  - rewrite app_nil_r. by destruct df.
  - apply NoDup_cons in Hnodup as [Hm Hnodup]. rewrite IH; [|done|].
    + unfold df_setitem_scalar. simpl.
      rewrite set_column_fresh by (apply Hfresh; by left).
      by rewrite <- app_assoc.
    + intros m' Hm'. unfold df_setitem_scalar, df_names. simpl.
      rewrite set_column_fresh by (apply Hfresh; by left).
      rewrite fmap_app, elem_of_app. simpl. rewrite list_elem_of_singleton.
      intros [Hin| ->]; [|done]. revert Hin. apply Hfresh. by right.
Qed.

Section Filled.
Variables (all_columns : list string) (df : DataFrame).
Hypothesis Hsub : ∀ c, c ∈ df_names df → c ∈ all_columns.

Lemma elem_of_missing (m : string) :
  m ∈ missing_columns all_columns df ↔ m ∈ all_columns ∧ m ∉ df_names df.
Proof.
  unfold missing_columns. rewrite elem_of_elements, elem_of_difference.
  by rewrite !elem_of_list_to_set.
Qed.

Lemma fill_missing_columns :
  fill_missing all_columns df
  = mkDataFrame (df_index df)
      (df_columns df ++ ((fun m => (m, replicate (df_index df) Null)) <$> missing_columns all_columns df)).
Proof.
  unfold fill_missing. apply fill_fresh_columns.
  - apply NoDup_elements.
  - intros m Hm. by apply elem_of_missing in Hm as [_ ?].
Qed.

Lemma fill_missing_names (c : string) :
  c ∈ df_names (fill_missing all_columns df) ↔ c ∈ all_columns.
Proof.
  rewrite fill_missing_columns. unfold df_names. simpl.
  rewrite fmap_app, elem_of_app, <- list_fmap_compose.
  change (fst ∘ _) with (@id string). rewrite list_fmap_id, elem_of_missing.
  split; [intros [?|[? _]]; auto|].
  intros Hc. destruct (decide (c ∈ (df_columns df).*1)); [by left|by right].
Qed.

Lemma fill_missing_NoDup :
  NoDup (df_names df) → NoDup (df_names (fill_missing all_columns df)).
Proof.
  intros Hnodup. rewrite fill_missing_columns. unfold df_names. simpl.
  rewrite fmap_app, <- list_fmap_compose.
  change (fst ∘ _) with (@id string). rewrite list_fmap_id.
  apply NoDup_app. split; [done|]. split; [|apply NoDup_elements].
  intros c Hc Hm. by apply elem_of_missing in Hm as [_ ?].
Qed.

(** A filled table contributes to a column what the table itself would:
    its own values, or nulls over its whole length. *)
Lemma fill_missing_rows (c : string) :
  c ∈ all_columns → rows_for c (fill_missing all_columns df) = rows_for c df.
Proof.
  intros Hc. unfold rows_for, df_column. rewrite fill_missing_columns. simpl.
  rewrite find_column_app. destruct (find_column c (df_columns df)) eqn:Hfind; [done|].
  apply find_column_None in Hfind.
  rewrite (find_column_generated c (fun _ => replicate (df_index df) Null)); [done|].
  by apply elem_of_missing.
Qed.
End Filled.

Lemma fmap_fst_imap {A B} (g : nat -> A * B -> A * B) (l : list (A * B)) :
  (∀ j c, (g j c).1 = c.1) → (imap g l).*1 = l.*1.
Proof.
  intros Hg. apply list_eq. intros i.
  rewrite !list_lookup_fmap, list_lookup_imap. destruct (l !! i); simpl; [|done].
  by rewrite Hg.
Qed.

Lemma elem_of_first_appearance (c : string) (l : list string) :
  c ∈ first_appearance l ↔ c ∈ l.
Proof.
  unfold first_appearance. by rewrite elem_of_reverse, elem_of_remove_dups, elem_of_reverse.
Qed.

(** What [pd.concat] makes of tables with distinct labels: the labels of all
    of them, and under each label the rows of every table in turn. *)
Lemma pd_concat_by_label (dfs : list DataFrame) :
  dfs ≠ [] →
  Forall (fun d => NoDup (df_names d)) dfs →
  ∃ merged,
    pd_concat dfs = Ok merged
    ∧ (∀ c, c ∈ df_names merged ↔ ∃ d, d ∈ dfs ∧ c ∈ df_names d)
    ∧ (∀ c, c ∈ df_names merged → df_column merged c = Some (mjoin (rows_for c <$> dfs))).
Proof.
  destruct dfs as [|d ds]; [done|]. intros _ Hnodup. unfold pd_concat.
  destruct (decide (Forall (fun d' => df_names d' = df_names d) ds)) as [Hsame|Hdiffer].
  - eexists. split; [done|].
    assert (Hall : ∀ d', d' ∈ d :: ds → df_names d' = df_names d).
    { intros d' [->|Hd']%elem_of_cons; [done|].
      by eapply (proj1 (Forall_forall _ _) Hsame). }
    assert (Hnames : ∀ g, (∀ j (c : string * list cell), (g j c).1 = c.1) →
              df_names (mkDataFrame (sum_list (df_index <$> d :: ds))
                          (imap g (df_columns d))) = df_names d).
    { intros g Hg. unfold df_names. simpl. by apply fmap_fst_imap. }
    split.
    + intros c. rewrite Hnames by done. split.
      * intros Hc. exists d. split; [by left|done].
      * intros (d' & Hd' & Hc). by rewrite <- (Hall d').
    + intros c. rewrite Hnames by done. intros Hc.
      apply list_elem_of_lookup in Hc as [j Hj].
      unfold df_names in Hj. rewrite list_lookup_fmap in Hj.
      destruct (df_columns d !! j) as [[c' v]|] eqn:Hcol; simpl in Hj; [|done].
      injection Hj as ->.
      unfold df_column. simpl df_columns.
      transitivity (Some (mjoin ((fun d' => default [] (snd <$> df_columns d' !! j))
                                   <$> d :: ds))).
      { apply (find_column_at _ j c).
        - rewrite fmap_fst_imap by done. by apply Forall_cons_1 in Hnodup as [? _].
        - rewrite list_lookup_imap, Hcol. simpl. by rewrite Hcol. }
      f_equal. f_equal. apply list_fmap_ext.
      intros i d' Hd'. apply list_elem_of_lookup_2 in Hd'.
      assert (df_names d' !! j = Some c) as Hj'.
      { rewrite (Hall d' Hd'). unfold df_names. by rewrite list_lookup_fmap, Hcol. }
      unfold df_names in Hj'. rewrite list_lookup_fmap in Hj'.
      destruct (df_columns d' !! j) as [[c'' v']|] eqn:Hcol'; simpl in Hj'; [|done].
      injection Hj' as ->. simpl. unfold rows_for, df_column.
      erewrite find_column_at; [done| |exact Hcol'].
      by eapply (proj1 (Forall_forall _ _) Hnodup).
  - rewrite decide_True by done. eexists. split; [done|].
    assert (Hnames : ∀ F, df_names (mkDataFrame (sum_list (df_index <$> d :: ds))
                ((fun name => (name, F name))
                   <$> first_appearance (mjoin (df_names <$> d :: ds))))
              = first_appearance (mjoin (df_names <$> d :: ds))).
    { intros F. unfold df_names. simpl df_columns. rewrite <- list_fmap_compose.
      apply list_fmap_id. }
    assert (Hmem : ∀ c, c ∈ first_appearance (mjoin (df_names <$> d :: ds))
                        ↔ ∃ d', d' ∈ d :: ds ∧ c ∈ df_names d').
    { intros c. rewrite elem_of_first_appearance, list_elem_of_join. split.
      - intros (l & Hl & (d' & -> & Hd')%list_elem_of_fmap). by exists d'.
      - intros (d' & Hd' & Hc). exists (df_names d'). split; [done|].
        apply list_elem_of_fmap. by exists d'. }
    split.
    + intros c. by rewrite Hnames.
    + intros c. rewrite Hnames. intros Hc.
      by apply (find_column_generated c (fun name => mjoin (rows_for name <$> d :: ds))).
Qed.

(** C7: stacking the per-file tables yields a table whose set of column
    labels is the union of theirs and in which, under every label, the rows
    of each file follow one another in file order: the file's own values, or
    nulls over its whole length when it lacks the label.  The per-file tables
    are taken with distinct labels each. *)
Theorem C7_stacking_unions_columns `{libs : PyLibs}
    (iba_file_list : list IbaFile) (dfs : list DataFrame)
    (channels : channels_arg) (names : names_arg) (tbase : Q) (delimiter : string) :
  iba_file_list ≠ [] →
  Forall2 (fun file df => readIbaFile file channels names tbase delimiter true true = Ok df)
    iba_file_list dfs →
  Forall (fun df => NoDup (df_names df)) dfs →
  ∃ merged,
    readIbaFiles iba_file_list channels names tbase delimiter = Ok merged
    ∧ (list_to_set (df_names merged) : gset string)
      = ⋃ ((fun df => list_to_set (df_names df)) <$> dfs)
    ∧ ∀ c, c ∈ df_names merged → df_column merged c = Some (mjoin (rows_for c <$> dfs)).
Proof.
  intros Hfiles Hread Hnodup.
  assert (Hdfs : dfs ≠ []).
  { intros ->. apply Forall2_nil_inv_r in Hread. done. }
  unfold readIbaFiles.
  rewrite (collect_tables channels names tbase delimiter iba_file_list dfs ([], []) Hread).
  simpl.
  set (all_columns := elements (list_to_set (mjoin (df_names <$> dfs)) : gset string)).
  assert (Hall : ∀ c, c ∈ all_columns ↔ ∃ d, d ∈ dfs ∧ c ∈ df_names d).
  { intros c. unfold all_columns.
    rewrite elem_of_elements, elem_of_list_to_set, list_elem_of_join. split.
    - intros (l & Hl & (d & -> & Hd)%list_elem_of_fmap). by exists d.
    - intros (d & Hd & Hc). exists (df_names d). split; [done|].
      apply list_elem_of_fmap. by exists d. }
  assert (Hsub : ∀ d, d ∈ dfs → ∀ c, c ∈ df_names d → c ∈ all_columns).
  { intros d Hd c Hc. apply Hall. by exists d. }
  destruct (pd_concat_by_label (fill_missing all_columns <$> dfs))
    as (merged & Hconcat & Hmem & Hcol).
  { by destruct dfs. }
  { apply Forall_fmap. eapply Forall_impl; [exact Hnodup|].
    intros d Hd. by apply fill_missing_NoDup. }
  exists merged. split; [done|].
  assert (Hmerged : ∀ c, c ∈ df_names merged ↔ c ∈ all_columns).
  { intros c. rewrite Hmem. split.
    - intros (d' & (d & -> & Hd)%list_elem_of_fmap & Hc).
      eapply fill_missing_names; [|done]. by apply Hsub.
    - intros Hc. destruct dfs as [|d ds]; [done|].
      exists (fill_missing all_columns d). split; [by left|].
      apply fill_missing_names; [|done]. apply Hsub. by left. }
  split.
  - apply set_eq. intros c.
    rewrite elem_of_list_to_set, Hmerged, Hall, elem_of_union_list. split.
    + intros (d & Hd & Hc). exists (list_to_set (df_names d)).
      split; [|by apply elem_of_list_to_set]. apply list_elem_of_fmap. by exists d.
    + intros (X & (d & -> & Hd)%list_elem_of_fmap & Hc).
      exists d. split; [done|]. by apply elem_of_list_to_set in Hc.
  - intros c Hc. rewrite (Hcol c Hc). f_equal. f_equal.
    rewrite <- list_fmap_compose. apply list_fmap_ext. intros i d Hd. simpl.
    apply fill_missing_rows. by apply Hmerged.
Qed.

(** File A with channels x, y and file B with channels x, z. *)
Lemma C7_stacking_witness :
  ∃ merged,
    readIbaFiles (libs:=Fixtures.strict_libs) [Fixtures.file_A; Fixtures.file_B]
      Fixtures.xyz (NmList ["x"; "y"; "z"]) 0 "," = Ok merged
    ∧ (list_to_set (df_names merged) : gset string)
      = list_to_set ["Time"; "x"; "y"; "z"]%string
    ∧ df_column merged "y" = Some [Num 3; Num 4; Null; Null]
    ∧ df_column merged "z" = Some [Null; Null; Num 7; Num 8].
Proof.
  destruct (C7_stacking_unions_columns (libs:=Fixtures.strict_libs)
              [Fixtures.file_A; Fixtures.file_B]
              [mkDataFrame 2 [("Time", [Stamp 0; Stamp 1]); ("x", [Num 1; Num 2]);
                              ("y", [Num 3; Num 4])];
               mkDataFrame 2 [("Time", [Stamp 10; Stamp 11]); ("x", [Num 5; Num 6]);
                              ("z", [Num 7; Num 8])]]%Q%string
              Fixtures.xyz (NmList ["x"; "y"; "z"]) 0 ",")
    as (merged & Hrun & Hlabels & Hrows).
  - discriminate.
  - repeat constructor; vm_compute; reflexivity.
  - repeat apply Forall_cons_2; [| |apply Forall_nil_2];
      apply (bool_decide_unpack _); by vm_compute.
  - exists merged. split; [exact Hrun|].
    assert (Hin : ∀ c, c ∈ ["Time"; "x"; "y"; "z"]%string → c ∈ df_names merged).
    { intros c Hc. apply (elem_of_list_to_set (C:=gset string)). rewrite Hlabels.
      apply list_elem_of_In in Hc.
      destruct Hc as [<-|[<-|[<-|[<-|[]]]]]; by vm_compute. }
    split; [|split].
    + rewrite Hlabels. by vm_compute.
    + rewrite Hrows; [done|]. apply Hin. apply list_elem_of_In. simpl. tauto.
    + rewrite Hrows; [done|]. apply Hin. apply list_elem_of_In. simpl. tauto.
Defined.

(** * Further properties *)

(** ** File validation, continued *)

(** X1: [__check_file__] leaves the reader as it found it: a reader that was
    open stays open on its file, and a reader that was closed is closed again
    on every way out, with or without an exception. *)
Theorem check_file_leaves_reader_as_found (reader : FileReader) (iba_file : IbaFile) :
  (__check_file__ reader iba_file).2 = reader.
Proof.
  unfold __check_file__. destruct reader as [f|]; simpl.
  - destruct (info_clk f) as [clk|]; simpl; [|done].
    destruct (info_frames f) as [frames|]; simpl; [|done].
    by destruct (decide (frames >= 1000000000)).
  - unfold reader_Open. destruct (Open_ok iba_file); simpl; [|done].
    destruct (info_clk iba_file) as [clk|]; simpl; [|done].
    destruct (info_frames iba_file) as [frames|]; simpl; [|done].
    by destruct (decide (frames >= 1000000000)).
Qed.

(** X2: when a header query fails on an open reader, the exception is chosen
    by the path alone: [FileNotFoundError] if the path is no longer a file,
    [IbaFileDamagedError] otherwise; the exception of the query is dropped. *)
Theorem check_file_failed_query (iba_file queried : IbaFile) (e : exn) :
  info_clk queried = Raise e ∨ info_frames queried = Raise e →
  (__check_file__ (Some queried) iba_file).1
  = if isfile iba_file then Raise IbaFileDamagedError else Raise FileNotFoundError.
Proof.
  intros Hquery. unfold __check_file__. simpl.
  destruct (info_clk queried) as [clk|e1]; simpl.
  - destruct Hquery as [|Hframes]; [done|]. rewrite Hframes. simpl.
    by destruct (isfile iba_file).
  - by destruct (isfile iba_file).
Qed.

(** A damaged header on a path that is still a file. *)
Lemma check_file_failed_query_witness :
  (__check_file__ (Some Fixtures.file_damaged) Fixtures.file_damaged).1
  = Raise IbaFileDamagedError.
Proof.
  apply (check_file_failed_query Fixtures.file_damaged Fixtures.file_damaged RuntimeError).
  by left.
Defined.

(** X3: [checkFile] returns a pair exactly for a file that is not being
    written, that the reader can open, whose two header queries succeed and
    whose frame count is below 1 000 000 000; the pair is what the queries
    returned. *)
Theorem checkFile_succeeds_iff (iba_file : IbaFile) (clk : Q) (frames : Z) :
  checkFile iba_file = Ok (clk, frames)
  ↔ isCurrentPDA iba_file = false ∧ Open_ok iba_file = true
    ∧ info_clk iba_file = Ok clk ∧ info_frames iba_file = Ok frames
    ∧ frames < 1000000000.
Proof.
  unfold checkFile, ibaReader, reader_Open, __check_file__.
  destruct (isCurrentPDA iba_file); [split; [done|by intros [? _]]|].
  destruct (Open_ok iba_file); simpl.
  2:{ split; [by destruct (isfile iba_file)|by intros (_ & ? & _)]. }
  destruct (info_clk iba_file) as [clk'|]; simpl.
  2:{ split; [by destruct (isfile iba_file)|by intros (_ & _ & ? & _)]. }
  destruct (info_frames iba_file) as [frames'|]; simpl.
  2:{ split; [by destruct (isfile iba_file)|by intros (_ & _ & _ & ? & _)]. }
  destruct (decide (frames' >= 1000000000)) as [Hbig|Hsmall]; simpl.
  - split; [done|]. intros (_ & _ & _ & [= ->] & ?). lia.
  - split.
    + intros [= -> ->]. repeat split; lia.
    + by intros (_ & _ & [= ->] & [= ->] & _).
Qed.

(** ** Numeric channels, continued *)

Lemma py_int_small (q : Q) : (0 <= q)%Q → (q < 1)%Q → py_int q = 0.
Proof.
  unfold Qle, Qlt, py_int. simpl. intros Hlo Hhi.
  apply Z.quot_small. lia.
Qed.

(** X4: at the native timebase ([tbase = 0]) a numeric series on the
    reference clock is returned as it was read, sample for sample. *)
Theorem read_numeric_channel_native `{libs : PyLibs}
    (chan_reader : ChannelReader) (channel_data : ArrayData) (clk : Q) :
  QueryData chan_reader = Some channel_data →
  (Timebase channel_data == clk)%Q →
  __read_numeric_channel__ chan_reader 0 clk = Ok (Num <$> array_values channel_data).
Proof.
  intros Hdata Haligned. unfold __read_numeric_channel__. rewrite Hdata.
  assert (Qeq_bool (Timebase channel_data) clk = true) as -> by by apply Qeq_bool_iff.
  done.
Qed.

(** Six samples on clock 1. *)
Lemma read_numeric_channel_native_witness :
  __read_numeric_channel__ (libs:=Fixtures.strict_libs) Fixtures.six_samples 0 1
  = Ok (Num <$> [10; 11; 12; 13; 14; 15]%Q).
Proof.
  apply (read_numeric_channel_native (libs:=Fixtures.strict_libs) Fixtures.six_samples
           (mkArrayData 1 [10; 11; 12; 13; 14; 15]%Q) 1); reflexivity.
Defined.

(** X5: a requested timebase that is positive but finer than the reference
    clock makes the step [int(tbase / clk)] zero, and the slice raises
    [ValueError]. *)
Theorem read_numeric_channel_too_fine `{libs : PyLibs}
    (chan_reader : ChannelReader) (channel_data : ArrayData) (tbase clk : Q) :
  QueryData chan_reader = Some channel_data →
  (Timebase channel_data == clk)%Q →
  (0 < tbase)%Q →
  (tbase < clk)%Q →
  __read_numeric_channel__ chan_reader tbase clk = Raise ValueError.
Proof.
  intros Hdata Haligned Hpos Hfine. unfold __read_numeric_channel__. rewrite Hdata.
  assert (Qeq_bool (Timebase channel_data) clk = true) as -> by by apply Qeq_bool_iff.
  simpl. rewrite (Qeq_bool_false tbase 0) by lra. simpl.
  unfold py_truediv. rewrite (Qeq_bool_false clk 0) by lra. simpl.
  rewrite py_int_small; [done| |].
  - apply Qle_shift_div_l; lra.
  - apply Qlt_shift_div_r; lra.
Qed.

(** Timebase one half on clock 1. *)
Lemma read_numeric_channel_too_fine_witness :
  __read_numeric_channel__ (libs:=Fixtures.strict_libs) Fixtures.six_samples (1 # 2) 1
  = Raise ValueError.
Proof.
  apply (read_numeric_channel_too_fine (libs:=Fixtures.strict_libs) Fixtures.six_samples
           (mkArrayData 1 [10; 11; 12; 13; 14; 15]%Q) (1 # 2) 1); reflexivity.
Defined.

(** ** Playback, continued *)

Section Rounds.
Variables (clock : nat -> Q) (channel : list OpcChannel) (period : Q) (data : DataFrame).

(** What a round does to the cursor. *)
Lemma tick_cursor (st st' : Playback) :
  tick clock channel period data st = Ok st' →
  idx st' = if decide (idx st + 1 > df_shape0 data) then 0 else idx st + 1.
Proof.
  unfold tick. intros Htick. inv_result.
  destruct (Qlt_le_dec _ _); inv_result; by subst st'.
Qed.

Lemma ticks_cursor_mod (rounds : nat) (st st' : Playback) :
  0 <= idx st <= df_shape0 data →
  ticks clock channel period data rounds st = Ok st' →
  idx st' = (idx st + Z.of_nat rounds) mod (df_shape0 data + 1).
Proof.
  revert st. induction rounds as [|rounds IH]; intros st Hidx Hrun.
  - simpl in Hrun. inv_result. subst st'. rewrite Z.add_0_r.
    symmetry. apply Z.mod_small. lia.
  - rewrite ticks_S in Hrun. inv_result.
    pose proof (tick_cursor _ _ Ha) as Hnext.
    rewrite (IH a); [|destruct (decide _); lia|done].
    rewrite Hnext. destruct (decide (idx st + 1 > df_shape0 data)) as [Hwrap|Hstep].
    + replace (idx st + Z.of_nat (S rounds))
        with (Z.of_nat rounds + 1 * (df_shape0 data + 1)) by lia.
      rewrite Z.mod_add by (unfold df_shape0; lia). done.
    + f_equal. lia.
Qed.
End Rounds.

(** X6: the cursor of the playback loop counts the rounds modulo [len + 1]:
    whenever [run] gets through [rounds] rounds on a table of [len] rows, the
    cursor is [rounds mod (len + 1)], a value in [0 .. len]. *)
Theorem run_cursor_counts_modulo_length_plus_one
    (clock : nat -> Q) (channel : list OpcChannel) (period : Q) (data : DataFrame)
    (rounds : nat) (st st' : Playback) :
  run clock channel period data rounds st = Ok st' →
  idx st' = Z.of_nat rounds mod (df_shape0 data + 1)
  ∧ 0 <= idx st' <= df_shape0 data.
Proof.
  unfold run. intros Hrun.
  apply ticks_cursor_mod in Hrun; [|simpl; unfold df_shape0; lia].
  simpl in Hrun. rewrite Z.add_0_l in Hrun. split; [done|]. rewrite Hrun.
  assert (Hlen : 0 < df_shape0 data + 1) by (unfold df_shape0; lia).
  pose proof (Z.mod_pos_bound (Z.of_nat rounds) (df_shape0 data + 1) Hlen) as Hbound.
  lia.
Qed.

(** Seven rounds of a group without channels over three rows. *)
Lemma run_cursor_witness :
  ∃ st',
    run PlaybackFixtures.exact_clock [] 1 PlaybackFixtures.three_rows 7
      (VariableUpdater_init PlaybackFixtures.exact_clock) = Ok st'
    ∧ idx st' = 3.
Proof.
  eexists. split; [vm_compute; reflexivity|].
  apply (run_cursor_counts_modulo_length_plus_one PlaybackFixtures.exact_clock []
           1 PlaybackFixtures.three_rows 7
           (VariableUpdater_init PlaybackFixtures.exact_clock)).
  vm_compute. reflexivity.
Defined.

Section Writes.
Variables (clock : nat -> Q) (period : Q) (data : DataFrame).



End Writes.



Section Clocks.
Variables (clock1 clock2 : nat -> Q) (period1 period2 : Q).
Variables (channel : list OpcChannel) (data : DataFrame).

Lemma tick_written (st1 st2 : Playback) :
  written st1 = written st2 →
  rmap written (tick clock1 channel period1 data st1)
  = rmap written (tick clock2 channel period2 data st2).
Proof.
  unfold written. intros [= Hidx Hsink]. unfold tick. rewrite Hidx, Hsink.
  destruct (for_each (write_value data (idx st2)) (sink st2) channel); simpl; [|done].
  by do 2 destruct (Qlt_le_dec _ _).
Qed.

Lemma ticks_written (rounds : nat) (st1 st2 : Playback) :
  written st1 = written st2 →
  rmap written (ticks clock1 channel period1 data rounds st1)
  = rmap written (ticks clock2 channel period2 data rounds st2).
Proof.
  revert st1 st2. induction rounds as [|rounds IH]; intros st1 st2 Hsame.
  - simpl. unfold rmap. simpl. by rewrite Hsame.
  - rewrite !ticks_S. pose proof (tick_written st1 st2 Hsame) as Htick.
    destruct (tick clock1 channel period1 data st1) as [st1'|e1];
      destruct (tick clock2 channel period2 data st2) as [st2'|e2];
      simpl in *; try discriminate.
    + apply IH. by apply Ok_inj in Htick.
    + by injection Htick as ->.
Qed.
End Clocks.

(** X8: timing never changes what is played: under any two clocks and any
    two periods, [run] over the same group, table and number of rounds ends
    with the same cursor and the same values written, or with the same
    exception.  In particular a late round is reported and the loop goes on. *)
Theorem run_written_independent_of_clock
    (clock1 clock2 : nat -> Q) (period1 period2 : Q)
    (channel : list OpcChannel) (data : DataFrame) (rounds : nat) (st1 st2 : Playback) :
  sink st1 = sink st2 →
  rmap written (run clock1 channel period1 data rounds st1)
  = rmap written (run clock2 channel period2 data rounds st2).
Proof.
  intros Hsink. unfold run. apply ticks_written. unfold written. simpl. by rewrite Hsink.
Qed.

(** The exact clock and the late clock, with different periods. *)
Lemma run_written_witness :
  rmap written
    (run PlaybackFixtures.exact_clock PlaybackFixtures.group 1 PlaybackFixtures.three_rows 3
       (VariableUpdater_init PlaybackFixtures.exact_clock))
  = rmap written
      (run PlaybackFixtures.late_clock PlaybackFixtures.group (1 # 1000)
         PlaybackFixtures.three_rows 3 (VariableUpdater_init PlaybackFixtures.late_clock)).
Proof.
  apply (run_written_independent_of_clock PlaybackFixtures.exact_clock
           PlaybackFixtures.late_clock 1 (1 # 1000)).
  reflexivity.
Defined.

Section Sleeps.
Variables (clock : nat -> Q) (channel : list OpcChannel) (period : Q) (data : DataFrame).

(** A round either sleeps for a positive time or reports an overrun. *)
Lemma tick_sleeps_or_reports (st st' : Playback) :
  tick clock channel period data st = Ok st' →
  (∃ d, (0 < d)%Q ∧ sleeps st' = sleeps st ++ [d] ∧ overruns st' = overruns st)
  ∨ (∃ d, (0 <= d)%Q ∧ sleeps st' = sleeps st ∧ overruns st' = overruns st ++ [d]).
Proof.
  unfold tick. intros Htick. inv_result.
  destruct (Qlt_le_dec _ _) as [Hpos|Hlate]; inv_result; subst st'; cbn [sleeps overruns].
  - left. eexists. split; [exact Hpos|]. split; reflexivity.
  - right. eexists. split; [|split; reflexivity]. apply Qabs_nonneg.
Qed.

Lemma ticks_sleeps_and_reports (rounds : nat) (st st' : Playback) :
  ticks clock channel period data rounds st = Ok st' →
  Forall (fun d => 0 < d)%Q (sleeps st) →
  Forall (fun d => 0 <= d)%Q (overruns st) →
  (length (sleeps st') + length (overruns st')
   = length (sleeps st) + length (overruns st) + rounds)%nat
  ∧ Forall (fun d => 0 < d)%Q (sleeps st')
  ∧ Forall (fun d => 0 <= d)%Q (overruns st').
Proof.
  revert st. induction rounds as [|rounds IH]; intros st Hrun Hsleeps Hreports.
  - simpl in Hrun. inv_result. subst st'. split; [lia|done].
  - rewrite ticks_S in Hrun. inv_result.
    destruct (tick_sleeps_or_reports st a Ha)
      as [(d & Hd & Hs & Ho)|(d & Hd & Hs & Ho)];
      destruct (IH a Hrun) as (Hcount & Hs' & Ho').
    + rewrite Hs. apply Forall_app. split; [done|]. by constructor.
    + by rewrite Ho.
    + split; [|done]. rewrite Hcount, Hs, Ho, length_app. simpl. lia.
    + by rewrite Hs.
    + rewrite Ho. apply Forall_app. split; [done|]. by constructor.
    + split; [|done]. rewrite Hcount, Hs, Ho, length_app. simpl. lia.
Qed.
End Sleeps.

(** X9: every round of the playback loop ends in exactly one of two ways, a
    sleep of positive length or a reported overrun of non-negative size: after
    [rounds] rounds of a freshly constructed updater the sleeps and the
    reports number [rounds] together. *)
Theorem run_sleeps_or_reports_each_round
    (clock : nat -> Q) (channel : list OpcChannel) (period : Q) (data : DataFrame)
    (rounds : nat) (st' : Playback) :
  run clock channel period data rounds (VariableUpdater_init clock) = Ok st' →
  (length (sleeps st') + length (overruns st'))%nat = rounds
  ∧ Forall (fun d => 0 < d)%Q (sleeps st')
  ∧ Forall (fun d => 0 <= d)%Q (overruns st').
Proof.
  unfold run. intros Hrun.
  apply ticks_sleeps_and_reports in Hrun as (Hcount & Hs & Ho); [|by constructor..].
  simpl in Hcount. done.
Qed.

(** Twenty rounds on the clock whose sleeps wake late. *)
Lemma run_sleeps_witness :
  ∃ st',
    run PlaybackFixtures.late_clock PlaybackFixtures.group 1 (PlaybackFixtures.rows 32) 20
      (VariableUpdater_init PlaybackFixtures.late_clock) = Ok st'
    ∧ (length (sleeps st') + length (overruns st'))%nat = 20%nat.
Proof.
  eexists. split; [vm_compute; reflexivity|].
  apply (run_sleeps_or_reports_each_round PlaybackFixtures.late_clock PlaybackFixtures.group
           1 (PlaybackFixtures.rows 32) 20).
  vm_compute. reflexivity.
Defined.

(** ** Stacking, continued *)

Lemma fill_missing_index (all_columns : list string) (df : DataFrame) :
  df_index (fill_missing all_columns df) = df_index df.
Proof.
  unfold fill_missing. generalize (missing_columns all_columns df). intros ms.
  revert df. induction ms as [|m ms IH]; intros df; simpl; [done|].
  by rewrite IH.
Qed.

Lemma pd_concat_index (dfs : list DataFrame) (merged : DataFrame) :
  pd_concat dfs = Ok merged → df_index merged = sum_list (df_index <$> dfs).
Proof.
  unfold pd_concat. destruct dfs as [|d ds]; [done|].
  destruct (decide _); [by intros [= <-]|].
  destruct (decide _); [by intros [= <-]|done].
Qed.

(** Nothing is missing from a table when only its own labels are asked for. *)
Lemma missing_columns_own (df : DataFrame) :
  missing_columns (elements (list_to_set (df_names df) : gset string)) df = [].
Proof.
  unfold missing_columns.
  assert ((list_to_set (elements (list_to_set (df_names df) : gset string)) : gset string)
          ∖ list_to_set (df_names df) = ∅) as ->; [|apply elements_empty].
  apply set_eq. intros c.
  rewrite elem_of_difference, !elem_of_list_to_set, elem_of_elements, elem_of_list_to_set.
  split; [by intros [? ?]|]. by intros ?%not_elem_of_empty.
Qed.

Lemma pd_concat_single (df : DataFrame) : pd_concat [df] = Ok df.
Proof.
  unfold pd_concat. rewrite decide_True by constructor. f_equal.
  destruct df as [n cols]. simpl. f_equal; [lia|].
  apply list_eq. intros j. rewrite list_lookup_imap.
  destruct (cols !! j) as [[c v]|]; simpl; [|done]. by rewrite app_nil_r.
Qed.

(** X10: stacking a single file is the tolerant extraction of that file:
    whenever [readIbaFile] in tolerant mode returns a table, [readIbaFiles] on
    the one-file list returns the same table, column for column. *)
Theorem readIbaFiles_single_file `{libs : PyLibs}
    (file : IbaFile) (channels : channels_arg) (names : names_arg) (tbase : Q)
    (delimiter : string) (df : DataFrame) :
  readIbaFile file channels names tbase delimiter true true = Ok df →
  readIbaFiles [file] channels names tbase delimiter = Ok df.
Proof.
  intros Hread. unfold readIbaFiles. simpl. unfold collect at 1. rewrite Hread. simpl.
  unfold fill_missing. rewrite missing_columns_own. simpl. apply pd_concat_single.
Qed.

(** File A alone. *)
Lemma readIbaFiles_single_file_witness :
  readIbaFiles (libs:=Fixtures.strict_libs) [Fixtures.file_A] Fixtures.xyz
    (NmList ["x"; "y"; "z"]) 0 ","
  = Ok (mkDataFrame 2 [("Time", [Stamp 0; Stamp 1]); ("x", [Num 1; Num 2]);
                       ("y", [Num 3; Num 4])]%Q%string).
Proof.
  apply (readIbaFiles_single_file (libs:=Fixtures.strict_libs)).
  vm_compute. reflexivity.
Defined.

(** X11: a stacked table has as many rows as the per-file tables together. *)
Theorem readIbaFiles_row_count `{libs : PyLibs}
    (iba_file_list : list IbaFile) (dfs : list DataFrame)
    (channels : channels_arg) (names : names_arg) (tbase : Q) (delimiter : string)
    (merged : DataFrame) :
  Forall2 (fun file df => readIbaFile file channels names tbase delimiter true true = Ok df)
    iba_file_list dfs →
  readIbaFiles iba_file_list channels names tbase delimiter = Ok merged →
  df_index merged = sum_list (df_index <$> dfs).
Proof.
  intros Hread. unfold readIbaFiles.
  rewrite (collect_tables channels names tbase delimiter iba_file_list dfs ([], []) Hread).
  simpl. intros Hconcat%pd_concat_index. rewrite Hconcat. f_equal.
  rewrite <- list_fmap_compose. apply list_fmap_ext. intros i d _. simpl.
  apply fill_missing_index.
Qed.

(** Files A and B, two rows each. *)
Lemma readIbaFiles_row_count_witness :
  ∃ merged,
    readIbaFiles (libs:=Fixtures.strict_libs) [Fixtures.file_A; Fixtures.file_B]
      Fixtures.xyz (NmList ["x"; "y"; "z"]) 0 "," = Ok merged
    ∧ df_index merged = 4%nat.
Proof.
  eexists. split; [vm_compute; reflexivity|].
  apply (readIbaFiles_row_count (libs:=Fixtures.strict_libs)
           [Fixtures.file_A; Fixtures.file_B]
           [mkDataFrame 2 [("Time", [Stamp 0; Stamp 1]); ("x", [Num 1; Num 2]);
                           ("y", [Num 3; Num 4])];
            mkDataFrame 2 [("Time", [Stamp 10; Stamp 11]); ("x", [Num 5; Num 6]);
                           ("z", [Num 7; Num 8])]]%Q%string
           Fixtures.xyz (NmList ["x"; "y"; "z"]) 0 ",").
  - repeat constructor; vm_compute; reflexivity.
  - vm_compute. reflexivity.
Defined.

(** ** Extraction of one file, continued *)

Lemma set_column_names (name : string) (vals : list cell) (cols : list (string * list cell)) :
  (set_column name vals cols).*1
  = if decide (name ∈ cols.*1) then cols.*1 else cols.*1 ++ [name].
Proof.
  unfold set_column. destruct (decide (name ∈ cols.*1)).
  - rewrite <- list_fmap_compose. apply list_fmap_ext.
    intros i [n v] _. simpl. by destruct (decide (n = name)).
  - by rewrite fmap_app.
Qed.

(** Storing a column keeps the labels distinct and adds at most the label
    stored. *)
Lemma df_setitem_labels (df df' : DataFrame) (name : string) (value : list cell)
    (allowed : list string) :
  df_setitem df name value = Ok df' →
  NoDup (df_names df) → df_names df ⊆ allowed → name ∈ allowed →
  NoDup (df_names df') ∧ df_names df' ⊆ allowed.
Proof.
  unfold df_setitem, df_names. intros Hset Hnodup Hsub Hname.
  assert (Hcols : ∀ cols : list (string * list cell),
            cols.*1 = (df_columns df).*1 →
            NoDup (set_column name value cols).*1
            ∧ (set_column name value cols).*1 ⊆ allowed).
  { intros cols Hsame. rewrite set_column_names, Hsame.
    destruct (decide (name ∈ (df_columns df).*1)) as [Hin|Hfresh]; [done|]. split.
    - apply NoDup_app. split; [done|]. split; [|apply NoDup_singleton].
      intros c Hc ->%list_elem_of_singleton. done.
    - intros c [Hc| ->%list_elem_of_singleton]%elem_of_app; [by apply Hsub|done]. }
  destruct (decide _) as [_|_].
  - injection Hset as <-. simpl. apply Hcols.
    rewrite <- list_fmap_compose. by apply list_fmap_ext.
  - destruct (decide _); [|done]. injection Hset as <-. simpl. by apply Hcols.
Qed.

Section Labels.
Context `{libs : PyLibs}.
Variables (reader : FileReader) (tbase clk : Q) (frames : Z) (ignore : bool).
Variables (names : list string).

Lemma add_channel_labels (df df' : DataFrame) (num : nat)
    (chan_data chan_data' : option (list cell)) :
  add_channel df names num chan_data = Ok (df', chan_data') →
  NoDup (df_names df) → df_names df ⊆ names →
  NoDup (df_names df') ∧ df_names df' ⊆ names.
Proof.
  unfold add_channel. intros Hadd Hnodup Hsub.
  destruct chan_data as [data|]; [|done].
  destruct (names !! num) as [name|] eqn:Hname; [|done].
  destruct (df_setitem df name data) as [df1|] eqn:Hset; [|done].
  injection Hadd as <- _. eapply df_setitem_labels; [done..|].
  by eapply list_elem_of_lookup_2.
Qed.

Lemma read_entry_labels (st st' : DataFrame * option (list cell)) (e : nat * chan_entry) :
  read_entry reader tbase clk frames ignore names st e = Ok st' →
  NoDup (df_names st.1) → df_names st.1 ⊆ names →
  NoDup (df_names st'.1) ∧ df_names st'.1 ⊆ names.
Proof.
  destruct st as [df chan_data], st' as [df' chan_data'], e as [num [chn|alts]];
    cbn -[add_channel].
  - destruct (__read_channel__ reader (ChannelStr chn) tbase clk frames) as [data|err].
    + apply add_channel_labels.
    + destruct err; try done. destruct ignore; [|done]. by intros [= <- <-].
  - destruct (read_alternatives reader tbase clk frames alts) as [[data|]|];
      cbn -[add_channel]; [| |done].
    + apply add_channel_labels.
    + destruct ignore; cbn -[add_channel]; [|done]. apply add_channel_labels.
Qed.

Lemma read_loop_labels (entries : list (nat * chan_entry))
    (st st' : DataFrame * option (list cell)) :
  for_each (read_entry reader tbase clk frames ignore names) st entries = Ok st' →
  NoDup (df_names st.1) → df_names st.1 ⊆ names →
  NoDup (df_names st'.1) ∧ df_names st'.1 ⊆ names.
Proof.
  revert st. induction entries as [|e entries IH]; intros st; simpl.
  - by intros [= <-].
  - destruct (read_entry reader tbase clk frames ignore names st e) as [st1|] eqn:Hentry;
      [|done].
    intros Hrest Hnodup Hsub.
    destruct (read_entry_labels st st1 e Hentry Hnodup Hsub) as [Hnodup1 Hsub1].
    by apply (IH st1).
Qed.
End Labels.

Lemma pd_concat_axis1_names (a b : DataFrame) :
  df_names (pd_concat_axis1 a b) = df_names a ++ df_names b.
Proof.
  unfold pd_concat_axis1, df_names. simpl.
  rewrite fmap_app, <- !list_fmap_compose. done.
Qed.

(** What a successful [readIbaFile] has gone through: the reader opened the
    file, the header was accepted, and the channel loop ran to its end. *)
Lemma readIbaFile_Ok_inv `{libs : PyLibs}
    (iba_file : IbaFile) (channels : channels_arg) (names : names_arg) (tbase : Q)
    (delimiter : string) (caching ignore : bool)
    (resolved : list chan_entry) (display : list string) (df : DataFrame) :
  __declaration_check__ iba_file channels names delimiter = Ok (resolved, display) →
  readIbaFile iba_file channels names tbase delimiter caching ignore = Ok df →
  ∃ clk frames time_data st,
    (__check_file__ (Some iba_file) iba_file).1 = Ok (clk, frames)
    ∧ for_each (read_entry (Some iba_file) tbase clk frames ignore display)
        (pd_DataFrame, None) (py_enumerate resolved) = Ok st
    ∧ df = pd_concat_axis1
             (mkDataFrame (length time_data) [("Time"%string, Stamp <$> time_data)]) st.1.
Proof.
  intros Hcheck Hread. unfold readIbaFile in Hread. rewrite Hcheck in Hread.
  simpl in Hread. apply rbind_Ok in Hread as (_ & _ & Hread).
  unfold ibaReader, reader_Open in Hread.
  destruct (isCurrentPDA iba_file); [done|].
  destruct (Open_ok iba_file); [|by destruct (isfile iba_file)].
  apply rbind_Ok in Hread as (df0 & Hbody & [= ->]).
  apply rbind_Ok in Hbody as ([clk frames] & Hheader & Hbody).
  apply rbind_Ok in Hbody as (start_time & _ & Hbody).
  apply rbind_Ok in Hbody as (time_data0 & _ & Hbody).
  apply rbind_Ok in Hbody as (time_data & _ & Hbody).
  apply rbind_Ok in Hbody as (st & Hloop & [= <-]).
  by exists clk, frames, time_data, st.
Qed.

(** X12: the table of one file starts with the column "Time"; its other
    columns carry distinct labels, each one of the display names the
    declaration resolved to.  So the labels of the whole table are distinct
    whenever no display name is "Time". *)
Theorem readIbaFile_labels `{libs : PyLibs}
    (iba_file : IbaFile) (channels : channels_arg) (names : names_arg) (tbase : Q)
    (delimiter : string) (caching ignore : bool)
    (resolved : list chan_entry) (display : list string) (df : DataFrame) :
  __declaration_check__ iba_file channels names delimiter = Ok (resolved, display) →
  readIbaFile iba_file channels names tbase delimiter caching ignore = Ok df →
  ∃ labels,
    df_names df = "Time"%string :: labels
    ∧ NoDup labels
    ∧ labels ⊆ display
    ∧ ("Time"%string ∉ display → NoDup (df_names df)).
Proof.
  intros Hcheck Hread.
  destruct (readIbaFile_Ok_inv _ _ _ _ _ _ _ _ _ _ Hcheck Hread)
    as (clk & frames & time_data & st & _ & Hloop & ->).
  destruct (read_loop_labels (Some iba_file) tbase clk frames ignore display _ _ _ Hloop)
    as [Hnodup Hsub]; [apply NoDup_nil_2|by intros c ?%elem_of_nil|].
  exists (df_names st.1). rewrite pd_concat_axis1_names. simpl.
  split; [done|]. split; [done|]. split; [done|].
  intros Htime. apply NoDup_cons. split; [|done]. intros Hin. by apply Htime, Hsub.
Qed.

(** File A under the names x, y, z. *)
Lemma readIbaFile_labels_witness :
  ∃ df,
    readIbaFile (libs:=Fixtures.strict_libs) Fixtures.file_A Fixtures.xyz
      (NmList ["x"; "y"; "z"]) 0 "," true true = Ok df
    ∧ NoDup (df_names df).
Proof.
  eexists. split; [vm_compute; reflexivity|].
  destruct (readIbaFile_labels (libs:=Fixtures.strict_libs) Fixtures.file_A Fixtures.xyz
              (NmList ["x"; "y"; "z"]) 0 "," true true
              [One "x"; One "y"; One "z"] ["x"; "y"; "z"]%string
              (mkDataFrame 2 [("Time", [Stamp 0; Stamp 1]); ("x", [Num 1; Num 2]);
                              ("y", [Num 3; Num 4])]%Q%string))
    as (labels & _ & _ & _ & Hnodup); [vm_compute; reflexivity..|].
  apply Hnodup. intros Hin. apply list_elem_of_In in Hin. simpl in Hin.
  destruct Hin as [?|[?|[?|[]]]]; discriminate.
Defined.

(** ** Exceptions that cannot come out *)

Lemma rbind_not_raise {A B} (m : result A) (k : A -> result B) (e : exn) :
  m ≠ Raise e → (∀ a, m = Ok a → k a ≠ Raise e) → rbind m k ≠ Raise e.
Proof.
  destruct m as [a|e']; simpl.
  - intros _ Hk. by apply Hk.
  - intros Hm _ [= ->]. by apply Hm.
Qed.

Lemma for_each_not_raise {A S} (body : S -> A -> result S) (st : S) (l : list A) (e : exn) :
  (∀ st' x, x ∈ l → body st' x ≠ Raise e) → for_each body st l ≠ Raise e.
Proof.
  revert st. induction l as [|x l IH]; intros st Hbody; simpl; [done|].
  destruct (body st x) as [st1|e'] eqn:Hx.
  - apply IH. intros st' y Hy. apply Hbody. by right.
  - rewrite <- Hx. apply Hbody. by left.
Qed.

Lemma ibaReader_not_raise {A} (iba_file : IbaFile) (body : FileReader -> result A) (e : exn) :
  e ≠ IbaFileIsCurrentlyWrittenError → e ≠ FileNotFoundError → e ≠ RuntimeError →
  body (Some iba_file) ≠ Raise e →
  ibaReader iba_file body ≠ Raise e.
Proof.
  intros Hwritten Hgone Hruntime Hbody. unfold ibaReader, reader_Open.
  destruct (isCurrentPDA iba_file); [congruence|].
  destruct (Open_ok iba_file); [|destruct (isfile iba_file); simpl; congruence].
  destruct (body (Some iba_file)); simpl; congruence.
Qed.

Lemma get_channels_not_found_free (iba_file : IbaFile) (ids : option (list chan_entry)) :
  get_channels iba_file ids ≠ Raise ChannelNotFoundError.
Proof.
  unfold get_channels. apply ibaReader_not_raise; [done..|]. simpl.
  destruct ids as [ids|]; [|done].
  apply for_each_not_raise. intros names cid _.
  apply for_each_not_raise. intros names' info _.
  destruct cid; simpl; [|done]. by destruct (_ || _).
Qed.

Lemma split_strip_not_found_free (s delimiter : string) :
  split_strip s delimiter ≠ Raise ChannelNotFoundError.
Proof. unfold split_strip, py_split. by destruct delimiter. Qed.

Lemma declaration_check_not_found_free (iba_file : IbaFile) (channels : channels_arg)
    (names : names_arg) (delimiter : string) :
  __declaration_check__ iba_file channels names delimiter ≠ Raise ChannelNotFoundError.
Proof.
  unfold __declaration_check__.
  assert (Hall : (channels ← get_channels iba_file None;
                  Ok (One <$> channels, NmList channels))
                 ≠ Raise ChannelNotFoundError).
  { apply rbind_not_raise; [apply get_channels_not_found_free|done]. }
  assert (Hfallback : ∀ chs : list chan_entry,
            (names ← get_channels iba_file (Some chs); Ok (chs, names))
            ≠ Raise ChannelNotFoundError).
  { intros chs. apply rbind_not_raise; [apply get_channels_not_found_free|done]. }
  apply rbind_not_raise.
  { destruct names; try done. unfold rmap.
    apply rbind_not_raise; [apply split_strip_not_found_free|done]. }
  intros names0 _. apply rbind_not_raise.
  - destruct channels as [|s|items|l]; try done.
    destruct (_ || _); [done|].
    apply rbind_not_raise; [apply split_strip_not_found_free|done].
  - intros [chs nms] _. destruct nms as [|s|l]; [apply Hfallback..|].
    destruct (decide _); [apply Hfallback|done].
Qed.

Lemma check_file_not_found_free (reader : FileReader) (iba_file : IbaFile) :
  (__check_file__ reader iba_file).1 ≠ Raise ChannelNotFoundError.
Proof.
  unfold __check_file__, reader_Open.
  destruct reader as [f|]; simpl.
  - destruct (info_clk f); simpl; [|by destruct (isfile iba_file)].
    destruct (info_frames f); simpl; [|by destruct (isfile iba_file)].
    by destruct (decide _).
  - destruct (Open_ok iba_file); simpl; [|done].
    destruct (info_clk iba_file); simpl; [|by destruct (isfile iba_file)].
    destruct (info_frames iba_file); simpl; [|by destruct (isfile iba_file)].
    by destruct (decide _).
Qed.

Section TolerantLoop.
Context `{libs : PyLibs}.
Variables (reader : FileReader) (tbase clk : Q) (frames : Z) (names : list string).

Lemma add_channel_not_found_free (df : DataFrame) (num : nat)
    (chan_data : option (list cell)) :
  add_channel df names num chan_data ≠ Raise ChannelNotFoundError.
Proof.
  unfold add_channel. destruct chan_data; [|done].
  destruct (names !! num); [|done]. by destruct (df_setitem _ _ _).
Qed.

Lemma read_alternatives_not_found_free (alts : list string) :
  read_alternatives reader tbase clk frames alts ≠ Raise ChannelNotFoundError.
Proof.
  induction alts as [|alt alts IH]; simpl; [done|].
  destruct (__read_channel__ reader (ChannelStr alt) tbase clk frames) as [|[]]; done.
Qed.

(** In tolerant mode no round of the channel loop lets
    [ChannelNotFoundError] out. *)
Lemma read_entry_tolerant (st : DataFrame * option (list cell)) (e : nat * chan_entry) :
  read_entry reader tbase clk frames true names st e ≠ Raise ChannelNotFoundError.
Proof.
  destruct st as [df chan_data], e as [num [chn|alts]]; cbn -[add_channel].
  - destruct (__read_channel__ reader (ChannelStr chn) tbase clk frames) as [|[]];
      try done; apply add_channel_not_found_free.
  - apply rbind_not_raise; [apply read_alternatives_not_found_free|].
    intros [data|] _; apply add_channel_not_found_free.
Qed.
End TolerantLoop.

(** X13: in tolerant mode [readIbaFile] never raises [ChannelNotFoundError],
    whatever is declared and whatever the file holds (the raw read of the
    cache preparation is taken not to raise that exception itself). *)
Theorem readIbaFile_tolerant_never_channel_not_found `{libs : PyLibs}
    (iba_file : IbaFile) (channels : channels_arg) (names : names_arg) (tbase : Q)
    (delimiter : string) (caching : bool) :
  raw_lines iba_file ≠ Raise ChannelNotFoundError →
  readIbaFile iba_file channels names tbase delimiter caching true
  ≠ Raise ChannelNotFoundError.
Proof.
  intros Hraw. unfold readIbaFile.
  apply rbind_not_raise; [apply declaration_check_not_found_free|].
  intros [resolved display] _. apply rbind_not_raise.
  { destruct (_ && _); [|done]. unfold __cache_prep__.
    by apply rbind_not_raise. }
  intros _ _. apply ibaReader_not_raise; [done..|].
  apply rbind_not_raise; [apply check_file_not_found_free|].
  intros [clk frames] _. apply rbind_not_raise; [done|].
  intros start_time _. apply rbind_not_raise.
  { unfold np_linspace. by repeat destruct (decide _). }
  intros time_data _. apply rbind_not_raise.
  { destruct (negb _); [|done]. apply rbind_not_raise.
    - unfold py_truediv. by destruct (Qeq_bool _ _).
    - intros step _. unfold py_slice_step. by destruct (py_int step). }
  intros time_data' _. apply rbind_not_raise; [|done].
  apply for_each_not_raise. intros st e _. apply read_entry_tolerant.
Qed.

(** File A asked for a channel it does not have. *)
Lemma readIbaFile_tolerant_witness :
  readIbaFile (libs:=Fixtures.strict_libs) Fixtures.file_A Fixtures.xyz
    (NmList ["x"; "y"; "z"]) 0 "," true true ≠ Raise ChannelNotFoundError
  ∧ readIbaFile (libs:=Fixtures.strict_libs) Fixtures.file_A Fixtures.xyz
      (NmList ["x"; "y"; "z"]) 0 "," true false = Raise ChannelNotFoundError.
Proof.
  split; [|vm_compute; reflexivity].
  apply (readIbaFile_tolerant_never_channel_not_found (libs:=Fixtures.strict_libs)).
  discriminate.
Defined.

(** X14: a requested timebase that is positive but finer than the clock of
    the file makes [readIbaFile] raise [ValueError] before any channel is
    read, for a file that is otherwise in order. *)
Theorem readIbaFile_timebase_too_fine `{libs : PyLibs}
    (iba_file : IbaFile) (channels : channels_arg) (names : names_arg) (tbase : Q)
    (delimiter : string) (ignore : bool)
    (resolved : list chan_entry) (display : list string) (clk : Q) (frames : Z) :
  __declaration_check__ iba_file channels names delimiter = Ok (resolved, display) →
  checkFile iba_file = Ok (clk, frames) →
  (0 < tbase)%Q →
  (tbase < clk)%Q →
  readIbaFile iba_file channels names tbase delimiter false ignore = Raise ValueError.
Proof.
  intros Hcheck Hfile Hpos Hfine. unfold readIbaFile. rewrite Hcheck. simpl.
  unfold checkFile in Hfile. unfold ibaReader, reader_Open in *.
  destruct (isCurrentPDA iba_file); [done|].
  destruct (Open_ok iba_file); [|by destruct (isfile iba_file)].
  apply rbind_Ok in Hfile as (header & Hheader & [= ->]). rewrite Hheader. simpl.
  unfold np_linspace.
  destruct (decide (frames < 0)); [done|].
  assert (Hslice : ∀ time_data : list Q,
            (step ← py_truediv tbase clk; py_slice_step time_data (py_int step))
            = Raise ValueError).
  { intros time_data. unfold py_truediv. rewrite (Qeq_bool_false clk 0) by lra. simpl.
    rewrite py_int_small; [done| |].
    - apply Qle_shift_div_l; lra.
    - apply Qlt_shift_div_r; lra. }
  rewrite (Qeq_bool_false tbase 0) by lra.
  destruct (decide (frames = 1)); simpl; by rewrite Hslice.
Qed.

(** File A, clock 1, asked for a timebase of one half. *)
Lemma readIbaFile_timebase_too_fine_witness :
  readIbaFile (libs:=Fixtures.strict_libs) Fixtures.file_A Fixtures.xyz
    (NmList ["x"; "y"; "z"]) (1 # 2) "," false true = Raise ValueError.
Proof.
  apply (readIbaFile_timebase_too_fine (libs:=Fixtures.strict_libs) Fixtures.file_A
           Fixtures.xyz (NmList ["x"; "y"; "z"]) (1 # 2) "," true
           [One "x"; One "y"; One "z"] ["x"; "y"; "z"]%string 1 2);
    vm_compute; reflexivity.
Defined.

(** ** Channel declarations, continued *)

Lemma split_strip_Ok (s delimiter : string) :
  delimiter ≠ EmptyString →
  split_strip s delimiter
  = Ok (py_strip <$> split_scan delimiter s 0 EmptyString).
Proof. intros Hdelimiter. unfold split_strip, py_split. by destruct delimiter. Qed.

(** X15: a mapping declares identities and names at once: the identities
    are its keys and the display names its values, in the order of the
    mapping, whatever is passed as [names].  The one way to fail is a [names]
    string together with an empty delimiter, which raises [ValueError] before
    the mapping is looked at. *)
Theorem declaration_check_mapping (iba_file : IbaFile) (items : list (string * string))
    (names : names_arg) (delimiter : string) :
  ((∀ s, names = NmStr s → delimiter ≠ EmptyString) →
   __declaration_check__ iba_file (ChDict items) names delimiter
   = Ok (One <$> items.*1, items.*2))
  ∧ (∀ s, __declaration_check__ iba_file (ChDict items) (NmStr s) EmptyString
          = Raise ValueError).
Proof.
  split; [|done]. intros Hnames. unfold __declaration_check__.
  assert (∃ names0, match names with
                    | NmStr s => rmap NmList (split_strip s delimiter)
                    | _ => Ok names
                    end = Ok names0) as [names0 ->].
  { destruct names as [|s|l]; [by eexists| |by eexists].
    rewrite split_strip_Ok by by apply (Hnames s). by eexists. }
  simpl. rewrite decide_False; [done|]. intros Hlen. apply Hlen.
  by rewrite !length_fmap.
Qed.

(** The mapping 3:0 -> Speed, 3:1 -> Torque under a names list of its own. *)
Lemma declaration_check_mapping_witness :
  __declaration_check__ Fixtures.file_A (ChDict [("3:0", "Speed"); ("3:1", "Torque")])
    (NmList ["a"; "b"; "c"]) ","
  = Ok ([One "3:0"; One "3:1"], ["Speed"; "Torque"]%string).
Proof.
  apply (declaration_check_mapping Fixtures.file_A [("3:0", "Speed"); ("3:1", "Torque")]
           (NmList ["a"; "b"; "c"]) ",")%string.
  discriminate.
Defined.

(** X16: without a declaration ([None], the empty string or "*") every
    channel of the file is declared under its own name, in the order the
    file lists them, for a file that is not being written and opens. *)
Theorem declaration_check_all_channels (iba_file : IbaFile) (channels : channels_arg)
    (names : names_arg) (delimiter : string) :
  channels = ChNone ∨ channels = ChStr "" ∨ channels = ChStr "*" →
  (∀ s, names = NmStr s → delimiter ≠ EmptyString) →
  isCurrentPDA iba_file = false →
  Open_ok iba_file = true →
  __declaration_check__ iba_file channels names delimiter
  = Ok (One <$> (EnumerateChannels iba_file).*2, (EnumerateChannels iba_file).*2).
Proof.
  intros Hchannels Hnames Hwritten Hopen. unfold __declaration_check__.
  assert (∃ names0, match names with
                    | NmStr s => rmap NmList (split_strip s delimiter)
                    | _ => Ok names
                    end = Ok names0) as [names0 ->].
  { destruct names as [|s|l]; [by eexists| |by eexists].
    rewrite split_strip_Ok by by apply (Hnames s). by eexists. }
  simpl.
  assert (get_channels iba_file None = Ok (EnumerateChannels iba_file).*2) as Hall.
  { unfold get_channels, ibaReader, reader_Open. by rewrite Hwritten, Hopen. }
  assert ((channels ← get_channels iba_file None; Ok (One <$> channels, NmList channels))
          = Ok (One <$> (EnumerateChannels iba_file).*2,
                NmList (EnumerateChannels iba_file).*2)) as Hbranch.
  { by rewrite Hall. }
  destruct Hchannels as [->|[->| ->]]; simpl in *; rewrite Hbranch; simpl;
    (rewrite decide_False; [done|]); intros Hlen; apply Hlen; by rewrite !length_fmap.
Qed.

(** File A declared with "*". *)
Lemma declaration_check_all_channels_witness :
  __declaration_check__ Fixtures.file_A (ChStr "*") NmNone ","
  = Ok ([One "x"; One "y"], ["x"; "y"]%string).
Proof.
  apply (declaration_check_all_channels Fixtures.file_A (ChStr "*") NmNone ",");
    [by right; right|discriminate|reflexivity|reflexivity].
Defined.

(** *** Trimmed tokens *)

Lemma lstrip_head (s : string) :
  lstrip s = EmptyString ∨ ∃ c t, lstrip s = String c t ∧ py_isspace c = false.
Proof.
  induction s as [|c s IH]; simpl; [by left|].
  destruct (py_isspace c) eqn:Hc; [done|]. right. by exists c, s.
Qed.

Lemma rstrip_head (c : ascii) (t : string) :
  py_isspace c = false → ∃ r, rstrip (String c t) = String c r.
Proof.
  intros Hc. simpl. destruct (rstrip t); rewrite ?Hc; by eexists.
Qed.

Lemma rstrip_idempotent (s : string) : rstrip (rstrip s) = rstrip s.
Proof.
  induction s as [|c s IH]; simpl; [done|].
  destruct (rstrip s) as [|c' r] eqn:Hr.
  - destruct (py_isspace c) eqn:Hc; simpl; [done|]. by rewrite Hc.
  - change (rstrip (String c (String c' r))) with
      (match rstrip (String c' r) with
       | EmptyString => if py_isspace c then EmptyString else String c EmptyString
       | r0 => String c r0
       end).
    by rewrite IH.
Qed.

(** Stripping twice is stripping once. *)
Lemma py_strip_idempotent (s : string) : py_strip (py_strip s) = py_strip s.
Proof.
  unfold py_strip. destruct (lstrip_head s) as [->|(c & t & -> & Hc)]; [done|].
  destruct (rstrip_head c t Hc) as [r Hr]. rewrite Hr. simpl lstrip. rewrite Hc.
  rewrite <- Hr. apply rstrip_idempotent.
Qed.

(** X17: every identity that comes out of a delimited-string declaration
    is a plain channel string without white space at either end: stripping
    it again changes nothing. *)
Theorem declaration_check_tokens_stripped (iba_file : IbaFile) (s : string)
    (names : names_arg) (delimiter : string)
    (resolved : list chan_entry) (display : list string) :
  s ≠ EmptyString → s ≠ "*"%string →
  __declaration_check__ iba_file (ChStr s) names delimiter = Ok (resolved, display) →
  ∀ entry, entry ∈ resolved → ∃ chn, entry = One chn ∧ py_strip chn = chn.
Proof.
  intros Hempty Hstar Hcheck. unfold __declaration_check__ in Hcheck.
  apply rbind_Ok in Hcheck as (names0 & _ & Hcheck).
  rewrite !bool_decide_eq_false_2 in Hcheck by done. simpl in Hcheck.
  apply rbind_Ok in Hcheck as ([chs nms] & Hsplit & Hcheck).
  apply rbind_Ok in Hsplit as (tokens & Htokens & [= <- <-]).
  assert (resolved = One <$> tokens) as ->.
  { destruct names0 as [| |l]; try destruct (decide _);
      apply rbind_Ok in Hcheck as (? & _ & Hcheck) || idtac; by injection Hcheck. }
  unfold split_strip in Htokens. apply rbind_Ok in Htokens as (raw & _ & [= <-]).
  intros entry (chn & -> & (token & -> & _)%list_elem_of_fmap)%list_elem_of_fmap.
  eexists. split; [done|]. apply py_strip_idempotent.
Qed.

(** The declaration " x , y " on file A. *)
Lemma declaration_check_tokens_witness :
  ∃ chn, One "x" = One chn ∧ py_strip chn = chn.
Proof.
  apply (declaration_check_tokens_stripped Fixtures.file_A " x , y " NmNone ","
           [One "x"; One "y"] ["x"; "y"]%string);
    [discriminate|discriminate|vm_compute; reflexivity|].
  apply list_elem_of_In. by left.
Defined.

Lemma filter_nonempty_entries (tokens : list string) :
  EmptyString ∉ tokens →
  filter (fun chn => chn ≠ One EmptyString) (One <$> tokens) = One <$> tokens.
Proof.
  induction tokens as [|t tokens IH]; intros Hnone; [done|].
  apply not_elem_of_cons in Hnone as [Ht Hnone].
  rewrite fmap_cons, filter_cons_True by congruence. by rewrite IH.
Qed.

(** X18: when no token of a delimited string is empty, declaring the
    string is the same as declaring the list of its trimmed tokens: the two
    calls return the same identities and names, or raise the same exception. *)
Theorem declaration_check_string_as_list (iba_file : IbaFile) (s : string)
    (names : names_arg) (delimiter : string) (tokens : list string) :
  s ≠ EmptyString → s ≠ "*"%string →
  split_strip s delimiter = Ok tokens →
  EmptyString ∉ tokens →
  __declaration_check__ iba_file (ChStr s) names delimiter
  = __declaration_check__ iba_file (ChList (One <$> tokens)) names delimiter.
Proof.
  intros Hempty Hstar Hsplit Hnone. unfold __declaration_check__.
  destruct (match names with NmStr _ => _ | _ => _ end) as [names0|]; simpl; [|done].
  rewrite !bool_decide_eq_false_2 by done. simpl.
  rewrite Hsplit. simpl. by rewrite filter_nonempty_entries.
Qed.

(** "x, y" against the list x, y. *)
Lemma declaration_check_string_as_list_witness :
  __declaration_check__ Fixtures.file_A (ChStr "x, y") NmNone ","
  = __declaration_check__ Fixtures.file_A (ChList [One "x"; One "y"]) NmNone ",".
Proof.
  apply (declaration_check_string_as_list Fixtures.file_A "x, y" NmNone "," ["x"; "y"]%string);
    [discriminate|discriminate|vm_compute; reflexivity|].
  intros Hin. apply list_elem_of_In in Hin. simpl in Hin.
  destruct Hin as [?|[?|[]]]; discriminate.
Defined.

(** ** Channel names of a file *)

Lemma for_each_invariant {A S} (P : S -> Prop) (body : S -> A -> result S)
    (st st' : S) (l : list A) :
  (∀ s x s', x ∈ l → P s → body s x = Ok s' → P s') →
  P st → for_each body st l = Ok st' → P st'.
Proof.
  revert st. induction l as [|x l IH]; intros st Hstep Hst; simpl.
  - by intros [= <-].
  - destruct (body st x) as [st1|] eqn:Hx; [|done].
    apply IH.
    + intros s y s' Hy. apply Hstep. by right.
    + eapply Hstep; [by left|done..].
Qed.

Lemma for_each_cons {A S} (body : S -> A -> result S) (st : S) (x : A) (l : list A) :
  for_each body st (x :: l) = (st' ← body st x; for_each body st' l).
Proof. simpl. by destruct (body st x). Qed.

Section Matching.
Variables (infos : list (string * string)).

(** The inner loop of [get_channels] for one id. *)
Local Abbreviation scan cid :=
  (fun (channels : list string) (info : string * string) =>
     b ← channel_matches cid info;
     Ok (if b : bool then channels ++ [info.2] else channels)).

Lemma scan_sound (cid : chan_entry) (l : list (string * string))
    (channels channels' : list string) :
  l ⊆ infos →
  channels ⊆ infos.*2 →
  for_each (scan cid) channels l = Ok channels' →
  channels' ⊆ infos.*2.
Proof.
  intros Hl Hsub. apply (for_each_invariant (fun s => s ⊆ infos.*2)); [|done].
  intros s info s' Hinfo Hs Hscan.
  apply rbind_Ok in Hscan as ([|] & _ & [= <-]); [|done].
  intros c [Hc| ->%list_elem_of_singleton]%elem_of_app; [by apply Hs|].
  apply list_elem_of_fmap. exists info. split; [done|]. by apply Hl.
Qed.

Lemma scan_grows (cid : chan_entry) (l : list (string * string))
    (channels channels' : list string) :
  for_each (scan cid) channels l = Ok channels' → channels ⊆ channels'.
Proof.
  revert channels. induction l as [|info l IH]; intros channels; simpl.
  - by intros [= <-].
  - destruct (rbind (channel_matches cid info) _) as [channels1|] eqn:Hscan; [|done].
    intros Hrest%IH.
    apply rbind_Ok in Hscan as ([|] & _ & [= <-]); [|done].
    intros c Hc. apply Hrest, elem_of_app. by left.
Qed.

Lemma scan_finds_name (chn : string) (l : list (string * string))
    (channels channels' : list string) :
  chn ∈ l.*2 →
  for_each (scan (One chn)) channels l = Ok channels' →
  chn ∈ channels'.
Proof.
  revert channels. induction l as [|info l IH]; intros channels Hin Hrun.
  - by apply elem_of_nil in Hin.
  - rewrite for_each_cons in Hrun. apply rbind_Ok in Hrun as (channels1 & Hstep & Hrest).
    rewrite fmap_cons in Hin. apply elem_of_cons in Hin as [->|Hin]; [|by eapply IH].
    simpl in Hstep. rewrite bool_decide_eq_true_2, orb_true_r in Hstep by done.
    injection Hstep as <-.
    apply (scan_grows _ _ _ _ Hrest). apply elem_of_app. right. by left.
Qed.
End Matching.

Lemma get_channels_Ok_inv (iba_file : IbaFile) (ids : option (list chan_entry))
    (names : list string) :
  get_channels iba_file ids = Ok names →
  match ids with
  | Some ids =>
      for_each (fun channels cid =>
        for_each (fun channels info =>
          b ← channel_matches cid info;
          Ok (if b : bool then channels ++ [info.2] else channels))
          channels (EnumerateChannels iba_file))
        [] ids = Ok names
  | None => names = (EnumerateChannels iba_file).*2
  end.
Proof.
  unfold get_channels, ibaReader, reader_Open. intros Hget.
  destruct (isCurrentPDA iba_file); [done|].
  destruct (Open_ok iba_file); [|by destruct (isfile iba_file)].
  apply rbind_Ok in Hget as (names' & Hbody & [= ->]). simpl in Hbody.
  destruct ids; [done|]. by injection Hbody.
Qed.

Lemma get_channels_loop_grows (infos : list (string * string)) (ids : list chan_entry)
    (channels channels' : list string) :
  for_each (fun channels cid =>
    for_each (fun channels info =>
      b ← channel_matches cid info;
      Ok (if b : bool then channels ++ [info.2] else channels))
      channels infos)
    channels ids = Ok channels' →
  channels ⊆ channels'.
Proof.
  revert channels. induction ids as [|cid ids IH]; intros channels Hrun.
  - simpl in Hrun. by injection Hrun as <-.
  - rewrite for_each_cons in Hrun. apply rbind_Ok in Hrun as (channels1 & Hstep & Hrest).
    apply scan_grows in Hstep. apply IH in Hrest. by etrans.
Qed.

(** X19: [get_channels] names channels of the file only: every name it
    returns is the name of a channel the file lists.  Without ids it returns
    all of them in the file's order; with ids, every id that is itself the
    name of a channel of the file is among the names returned. *)
Theorem get_channels_names (iba_file : IbaFile) (ids : option (list chan_entry))
    (names : list string) :
  get_channels iba_file ids = Ok names →
  names ⊆ (EnumerateChannels iba_file).*2
  ∧ (ids = None → names = (EnumerateChannels iba_file).*2)
  ∧ (∀ l chn, ids = Some l → One chn ∈ l →
       chn ∈ (EnumerateChannels iba_file).*2 → chn ∈ names).
Proof.
  intros Hget%get_channels_Ok_inv. destruct ids as [ids|].
  - split; [|split; [done|]].
    + revert Hget.
      apply (for_each_invariant (fun s => s ⊆ (EnumerateChannels iba_file).*2));
        [|by intros c ?%elem_of_nil].
      intros s cid s' _ Hs Hscan. by eapply scan_sound.
    + intros l chn [= <-] Hid Hname.
      apply list_elem_of_split in Hid as (before & after & ->).
      rewrite for_each_app in Hget. apply rbind_Ok in Hget as (found & _ & Hget).
      rewrite for_each_cons in Hget. apply rbind_Ok in Hget as (found' & Hscan & Hget).
      apply (get_channels_loop_grows _ _ _ _ Hget). by eapply scan_finds_name.
  - subst names. split; [done|]. split; [done|]. by intros l chn [=].
Qed.

(** The ids y, w and x on file A, which has the channels x and y. *)
Lemma get_channels_names_witness :
  get_channels Fixtures.file_A (Some [One "y"; One "w"; One "x"]) = Ok ["y"; "x"]%string
  ∧ ["y"; "x"]%string ⊆ (EnumerateChannels Fixtures.file_A).*2.
Proof.
  split; [vm_compute; reflexivity|].
  apply (get_channels_names Fixtures.file_A (Some [One "y"; One "w"; One "x"])).
  vm_compute. reflexivity.
Defined.

(** ** Ordering of files, continued *)

Section Sorting.
Context {A : Type} (key : A -> Q).

(** Ascending by key. *)
Local Abbreviation by_key := (fun x y : A => (key x <= key y)%Q).

Lemma insert_by_HdRel (y x : A) (l : list A) :
  (key y <= key x)%Q → HdRel by_key y l → HdRel by_key y (insert_by key x l).
Proof.
  intros Hyx Hhd. destruct l as [|z l]; simpl; [by constructor|].
  destruct (Qle_bool (key x) (key z)); constructor; [done|].
  by apply HdRel_inv in Hhd.
Qed.

Lemma insert_by_sorted (x : A) (l : list A) :
  Sorted by_key l → Sorted by_key (insert_by key x l).
Proof.
  induction l as [|y l IH]; intros Hsorted; simpl.
  - by repeat constructor.
  - destruct (Qle_bool (key x) (key y)) eqn:Hle.
    + constructor; [done|]. constructor. by apply Qle_bool_iff.
    + apply Sorted_inv in Hsorted as [Hsorted Hhd]. constructor; [by apply IH|].
      apply insert_by_HdRel; [|done].
      destruct (Qlt_le_dec (key x) (key y)) as [Hlt|Hge]; [|done].
      apply Qlt_le_weak in Hlt. apply Qle_bool_iff in Hlt. congruence.
Qed.

Lemma py_sorted_sorted (l : list A) : Sorted by_key (py_sorted key l).
Proof.
  unfold py_sorted. induction l as [|x l IH]; simpl; [constructor|].
  by apply insert_by_sorted.
Qed.
End Sorting.

Section SortDict.
Context `{libs : PyLibs}.

Lemma dict_set_NoDup (key : string) (value : Q) (d : list (string * Q)) :
  NoDup d.*1 → NoDup (dict_set key value d).*1.
Proof.
  intros Hnodup. unfold dict_set. destruct (decide (key ∈ d.*1)) as [Hin|Hfresh].
  - assert (((fun kv : string * Q => if decide (kv.1 = key) then (key, value) else kv)
               <$> d).*1 = d.*1) as ->; [|done].
    rewrite <- list_fmap_compose. apply list_fmap_ext.
    intros i [k' v'] _. simpl. by destruct (decide (k' = key)) as [->|].
  - rewrite fmap_app. apply NoDup_app. split; [done|]. split; [|apply NoDup_singleton].
    intros k Hk ->%list_elem_of_singleton. done.
Qed.

Lemma dict_set_items (key : string) (value : Q) (d : list (string * Q)) (kv : string * Q) :
  kv ∈ dict_set key value d → kv = (key, value) ∨ kv ∈ d.
Proof.
  unfold dict_set. destruct (decide (key ∈ d.*1)) as [Hin|Hfresh].
  - intros ([k v] & -> & Hkv)%list_elem_of_fmap. simpl.
    destruct (decide (k = key)); [by left|by right].
  - intros [Hkv| ->%list_elem_of_singleton]%elem_of_app; [by right|by left].
Qed.

(** The dict of [sortIbaFiles] has each path once, under a start time read
    from a file with that path. *)
Lemma sort_dict_items (iba_files : list IbaFile) (d0 : list (string * Q)) :
  let sort_dict :=
    foldl (fun sort_dict iba_file =>
             match get_start_time iba_file with
             | Ok t => dict_set (path iba_file) t sort_dict
             | Raise _ => sort_dict
             end) d0 iba_files in
  (NoDup d0.*1 → NoDup sort_dict.*1)
  ∧ ∀ p t, (p, t) ∈ sort_dict →
      (p, t) ∈ d0 ∨ ∃ f, f ∈ iba_files ∧ path f = p ∧ get_start_time f = Ok t.
Proof.
  revert d0. induction iba_files as [|f files IH]; intros d0; simpl.
  - split; [done|]. intros p t Hin. by left.
  - destruct (get_start_time f) as [t0|e] eqn:Hstart.
    + destruct (IH (dict_set (path f) t0 d0)) as [Hnodup Hitems]. split.
      * intros Hd0. by apply Hnodup, dict_set_NoDup.
      * intros p t Hin. destruct (Hitems p t Hin) as [Hset|(g & Hg & Hp & Ht)].
        -- apply dict_set_items in Hset as [[= -> ->]|Hd0]; [|by left].
           right. exists f. split; [by left|done].
        -- right. exists g. split; [by right|done].
    + destruct (IH d0) as [Hnodup Hitems]. split; [done|].
      intros p t Hin. destruct (Hitems p t Hin) as [Hd0|(g & Hg & Hp & Ht)]; [by left|].
      right. exists g. split; [by right|done].
Qed.
End SortDict.

(** X20: [sortIbaFiles] returns each path at most once and in ascending
    order of start time: the result is the list of keys of a list of (path,
    start time) pairs whose times ascend, each time being the start time read
    from a file of the input with that path. *)
Theorem sortIbaFiles_ascending `{libs : PyLibs} (iba_files : list IbaFile) :
  ∃ timed : list (string * Q),
    sortIbaFiles iba_files = timed.*1
    ∧ NoDup timed.*1
    ∧ Sorted Qle timed.*2
    ∧ ∀ p t, (p, t) ∈ timed →
        ∃ f, f ∈ iba_files ∧ path f = p ∧ get_start_time f = Ok t.
Proof.
  unfold sortIbaFiles.
  destruct (sort_dict_items iba_files []) as [Hnodup Hitems].
  set (sort_dict := foldl _ [] iba_files) in *.
  exists (py_sorted snd sort_dict). split; [done|]. split; [|split].
  - rewrite py_sorted_perm. apply Hnodup. constructor.
  - apply (Sorted_fmap snd (fun x y : string * Q => (x.2 <= y.2)%Q) Qle); [done|].
    apply py_sorted_sorted.
  - intros p t Hin. rewrite py_sorted_perm in Hin.
    destruct (Hitems p t Hin) as [Hnil|Hfile]; [|done]. by apply elem_of_nil in Hnil.
Qed.

(** ** The start time in the header *)

Section Header.
(** A line that does not open with the start-time key. *)
Local Abbreviation other_line := (fun line : string => String.prefix "starttime:" line = false).

(** The scan stops on the first line that opens with the key, if it is
    among the lines it may still read. *)
Lemma header_scan_finds (pre : list string) (line : string) (post : list string)
    (fuel : nat) (line_idx : Z) :
  Forall other_line pre →
  String.prefix "starttime:" line = true →
  (length pre <= fuel)%nat →
  line_idx + Z.of_nat (length pre) <= 20 →
  header_scan fuel (tail (pre ++ line :: post))
    (default EmptyString (head (pre ++ line :: post))) line_idx
  = (post, line, line_idx + Z.of_nat (length pre)).
Proof.
  revert fuel line_idx. induction pre as [|p pre IH]; intros fuel line_idx Hpre Hline Hfuel Hidx.
  - simpl. destruct fuel; simpl; rewrite Hline; by rewrite Z.add_0_r.
  - apply Forall_cons in Hpre as [Hp Hpre].
    destruct fuel as [|fuel]; [simpl in Hfuel; lia|].
    change (p :: pre) with ([p] ++ pre). simpl tail. simpl head. simpl default.
    rewrite <- app_comm_cons. simpl tail. simpl head. simpl default.
    change (header_scan (S fuel) (pre ++ line :: post) p line_idx)
      with (if String.prefix "starttime:" p then (pre ++ line :: post, p, line_idx)
            else
              let cur_line := default EmptyString (head (pre ++ line :: post)) in
              let rest := tail (pre ++ line :: post) in
              let line_idx := line_idx + 1 in
              if decide (line_idx > 20) then (rest, cur_line, line_idx)
              else header_scan fuel rest cur_line line_idx).
    rewrite Hp. cbv zeta. simpl length in *.
    destruct (decide (line_idx + 1 > 20)) as [|_]; [lia|].
    rewrite IH; [|done|done|lia|lia]. f_equal. lia.
Qed.

(** Without such a line among the first twenty, the scan ends past line 20. *)
Lemma header_scan_misses (lines : list string) (fuel : nat) (line_idx : Z) :
  Forall other_line (take fuel lines) →
  line_idx + Z.of_nat fuel = 21 →
  (header_scan fuel (tail lines) (default EmptyString (head lines)) line_idx).2 > 20.
Proof.
  revert lines line_idx. induction fuel as [|fuel IH]; intros lines line_idx Hlines Hidx.
  - simpl. destruct (String.prefix _ _); simpl; lia.
  - assert (other_line (default EmptyString (head lines))) as Hcur.
    { destruct lines as [|l lines]; [done|]. by apply Forall_cons in Hlines as [? _]. }
    change (header_scan (S fuel) (tail lines) (default EmptyString (head lines)) line_idx)
      with (if String.prefix "starttime:" (default EmptyString (head lines))
            then (tail lines, default EmptyString (head lines), line_idx)
            else
              let cur_line := default EmptyString (head (tail lines)) in
              let rest := tail (tail lines) in
              let line_idx := line_idx + 1 in
              if decide (line_idx > 20) then (rest, cur_line, line_idx)
              else header_scan fuel rest cur_line line_idx).
    rewrite Hcur. cbv zeta.
    destruct (decide (line_idx + 1 > 20)) as [Hend|_]; [simpl; lia|].
    apply IH; [|lia].
    destruct lines as [|l lines]; simpl; [rewrite take_nil; constructor|].
    by apply Forall_cons in Hlines as [_ ?].
Qed.
End Header.

(** X21: the start time is taken from the header when one of the first 20
    lines of the file opens with "starttime:" and is not the last line of the
    file: the first such line, stripped and freed of the key, is parsed with
    the fractional-seconds format and, if that fails, with the plain one. *)
Theorem get_start_time_from_header `{libs : PyLibs}
    (file : IbaFile) (pre : list string) (line : string) (post : list string) :
  raw_lines file = Ok (pre ++ line :: post) →
  Forall (fun l => String.prefix "starttime:" l = false) pre →
  String.prefix "starttime:" line = true →
  (length pre < 20)%nat →
  post ≠ [] →
  let start_time :=
    String.concat EmptyString (split_scan "starttime:" (py_strip line) 0 EmptyString) in
  get_start_time file
  = match strptime start_time "%d.%m.%Y %H:%M:%S.%f" with
    | Ok t => Ok t
    | Raise _ => strptime start_time "%d.%m.%Y %H:%M:%S"
    end.
Proof.
  intros Hraw Hpre Hline Hlen Hpost start_time. unfold get_start_time. rewrite Hraw.
  cbn [rbind].
  rewrite (header_scan_finds pre line post 20 1 Hpre Hline) by lia.
  rewrite bool_decide_eq_false_2 by done.
  rewrite bool_decide_eq_false_2 by lia. done.
Qed.

(** X22: the start time is asked of the reader instead when none of the
    first 20 lines opens with "starttime:", and also when no line before the
    last line of the file does (a key on the very last line is not used). *)
Theorem get_start_time_from_reader `{libs : PyLibs} (file : IbaFile) (lines : list string) :
  raw_lines file = Ok lines →
  Forall (fun l => String.prefix "starttime:" l = false) (take 20 lines)
  ∨ Forall (fun l => String.prefix "starttime:" l = false) (take (length lines - 1) lines) →
  get_start_time file
  = ibaReader file (fun reader => reader_query reader (fun f => Ok (GetStartTime f))).
Proof.
  intros Hraw Hlines. unfold get_start_time. rewrite Hraw. cbn [rbind].
  assert (Hwindow :
    Forall (fun l => String.prefix "starttime:" l = false) (take 20 lines)
    ∨ ∃ pre line, lines = pre ++ [line]
        ∧ Forall (fun l => String.prefix "starttime:" l = false) pre
        ∧ String.prefix "starttime:" line = true ∧ (length pre < 20)%nat).
  { destruct Hlines as [Hfirst|Hbefore]; [by left|].
    destruct (decide (20 <= length lines - 1)%nat) as [Hlong|Hshort].
    { left. replace (take 20 lines) with (take 20 (take (length lines - 1) lines)).
      - by apply Forall_take.
      - rewrite take_take. f_equal. lia. }
    destruct lines as [|l0 lines0] using rev_ind; [left; constructor|].
    rewrite length_app in *. simpl in *.
    replace (length lines0 + 1 - 1)%nat with (length lines0) in * by lia.
    rewrite take_app_length in Hbefore.
    destruct (String.prefix "starttime:" l0) eqn:Hlast.
    - right. exists lines0, l0. repeat split; [done..|lia].
    - left. apply Forall_take. apply Forall_app. split; [done|]. by constructor. }
  destruct Hwindow as [Hnone|(pre & line & -> & Hpre & Hline & Hlen)].
  - pose proof (header_scan_misses lines 20 1 Hnone eq_refl) as Hpast.
    destruct (header_scan 20 (tail lines) (default EmptyString (head lines)) 1)
      as [[rest cur_line] line_idx]. simpl in Hpast.
    rewrite (bool_decide_eq_true_2 (line_idx > 20)) by done. by rewrite orb_true_r.
  - rewrite (header_scan_finds pre line [] 20 1 Hpre Hline) by lia. done.
Qed.

(** A header of three lines with the key on the second. *)
Lemma get_start_time_from_header_witness :
  get_start_time (libs:=DiscoveryFixtures.dated_libs) DiscoveryFixtures.file_with_header
  = Ok 5%Q.
Proof.
  rewrite (get_start_time_from_header (libs:=DiscoveryFixtures.dated_libs)
             DiscoveryFixtures.file_with_header ["ibaPDA"%string]
             "starttime:01.01.1970 00:00:05 " ["frames:2"%string]);
    [reflexivity|reflexivity|by repeat constructor|reflexivity|simpl; lia|discriminate].
Defined.

(** A file without header lines. *)
Lemma get_start_time_from_reader_witness :
  get_start_time (libs:=Fixtures.strict_libs) Fixtures.file_A = Ok 0%Q.
Proof.
  rewrite (get_start_time_from_reader (libs:=Fixtures.strict_libs) Fixtures.file_A []);
    [reflexivity|reflexivity|left; constructor].
Defined.

(** ** Discovery of files *)

Lemma Directory_nested_ind (P : Directory -> Prop) :
  (∀ p subs, Forall P subs → P (mkDirectory p subs)) → ∀ d, P d.
Proof.
  intros Hnode. fix IH 1. intros [p subs]. apply Hnode.
  induction subs as [|sub subs IHsubs]; constructor; [apply IH|exact IHsubs].
Qed.

Section Scan.
Context `{os : OsLibs}.

(** The matches of one directory for a file type without leading dot. *)
Local Abbreviation matches_in file_type file_name :=
  (fun d : Directory =>
     glob_glob (os_path_join (dir_path d) (file_name +:+ "." +:+ file_type))).

Lemma getFiles_in_undotted (directory : Directory) (file_type file_name : string) :
  String.prefix "." file_type = false →
  getFiles_in directory file_type file_name true
  = mjoin (matches_in file_type file_name <$> all_directories directory).
Proof.
  intros Hdot. induction directory as [p subs IH] using Directory_nested_ind.
  simpl. rewrite Hdot. f_equal.
  change (list_fmap Directory (list string)) with (@fmap list _ Directory (list string)).
  induction IH as [|sub subs Hsub _ IHsubs]; [done|].
  rewrite !fmap_cons.
  change (mjoin (all_directories sub :: (all_directories <$> subs)))
    with (all_directories sub ++ mjoin (all_directories <$> subs)).
  change (mjoin (getFiles_in sub file_type file_name true
                 :: ((fun sub_folder => getFiles_in sub_folder file_type file_name true)
                       <$> subs)))
    with (getFiles_in sub file_type file_name true
          ++ mjoin ((fun sub_folder => getFiles_in sub_folder file_type file_name true)
                      <$> subs)).
  by rewrite fmap_app, join_app, Hsub, IHsubs.
Qed.
End Scan.

(** X23: with sub folders, [getFiles] returns the matches of the directory
    and of every folder below it, each folder before its own sub folders, all
    for the same pattern: the file name, a dot, and the file type without its
    leading dot (for a type with at most one leading dot).  Without sub
    folders it returns the matches of the directory alone. *)
Theorem getFiles_scans_every_directory `{os : OsLibs}
    (directory : option Directory) (file_type file_name : string) :
  let root := default os_getcwd directory in
  let bare := if String.prefix "." file_type then py_str_from 1 file_type else file_type in
  let matches := fun d : Directory =>
    glob_glob (os_path_join (dir_path d) (file_name +:+ "." +:+ bare)) in
  (String.prefix "." bare = false →
   getFiles directory file_type file_name true = mjoin (matches <$> all_directories root))
  ∧ getFiles directory file_type file_name false = matches root.
Proof.
  intros root bare matches. unfold getFiles. fold root. subst matches.
  split; [|by destruct root].
  intros Hbare. rewrite <- (getFiles_in_undotted root bare file_name Hbare).
  destruct root as [p subs]. simpl. fold bare. by rewrite Hbare.
Qed.

(** The folder [dat] and its sub folder, asked for ".dat" files. *)
Lemma getFiles_witness :
  getFiles (os:=DiscoveryFixtures.disk) None ".dat" "*" true
  = ["dat/b.dat"; "dat/old/a.dat"]%string.
Proof.
  destruct (getFiles_scans_every_directory (os:=DiscoveryFixtures.disk) None ".dat" "*")
    as [Hall _].
  rewrite Hall; reflexivity.
Defined.

(** X24: [getSortedIbaFiles] returns exactly the paths of the ".dat" files
    found by [getFiles] whose start time can be read, where every path leads
    to the file of that path. *)
Theorem getSortedIbaFiles_paths `{os : OsLibs} `{libs : PyLibs}
    (directory : Directory) (scan_sub_folders : bool) (p : string) :
  (∀ q, path (file_at q) = q) →
  p ∈ getSortedIbaFiles directory scan_sub_folders
  ↔ p ∈ getFiles (Some directory) "dat" "*" scan_sub_folders
    ∧ is_Ok (get_start_time (file_at p)) = true.
Proof.
  intros Hpath. unfold getSortedIbaFiles. rewrite sortIbaFiles_keeps_readable. split.
  - intros (f & (q & -> & Hq)%list_elem_of_fmap & <- & Hok). by rewrite Hpath.
  - intros [Hp Hok]. exists (file_at p). split; [|done].
    apply list_elem_of_fmap. by exists p.
Qed.

(** The two files under [dat]. *)
Lemma getSortedIbaFiles_witness :
  "dat/old/a.dat"%string
  ∈ getSortedIbaFiles (os:=DiscoveryFixtures.disk) (libs:=Fixtures.strict_libs)
      DiscoveryFixtures.tree true.
Proof.
  apply (getSortedIbaFiles_paths (os:=DiscoveryFixtures.disk) (libs:=Fixtures.strict_libs)).
  - intros q. simpl. by destruct (decide _).
  - split; [|reflexivity]. apply list_elem_of_In. vm_compute. tauto.
Defined.

(** ** Channels by sample rate *)

Section Groups.
Context {K : Type} `{EqDecision K}.
Implicit Types (groups : list (K * list (gmap string pyval))) (chan : gmap string pyval).

Lemma group_append_keys (key : K) chan groups :
  (group_append key chan groups).*1
  = if decide (key ∈ groups.*1) then groups.*1 else groups.*1 ++ [key].
Proof.
  unfold group_append. destruct (decide (key ∈ groups.*1)).
  - rewrite <- list_fmap_compose. apply list_fmap_ext.
    intros i [k g] _. simpl. by destruct (decide (k = key)).
  - by rewrite fmap_app.
Qed.

Lemma group_append_NoDup (key : K) chan groups :
  NoDup groups.*1 → NoDup (group_append key chan groups).*1.
Proof.
  intros Hnodup. rewrite group_append_keys.
  destruct (decide (key ∈ groups.*1)); [done|].
  apply NoDup_app. split; [done|]. split; [|apply NoDup_singleton].
  intros k Hk ->%list_elem_of_singleton. done.
Qed.

Lemma group_append_key_in (key : K) chan groups :
  key ∈ (group_append key chan groups).*1.
Proof.
  rewrite group_append_keys. destruct (decide (key ∈ groups.*1)); [done|].
  apply elem_of_app. right. by left.
Qed.

Lemma group_append_keys_grow (key k : K) chan groups :
  k ∈ groups.*1 → k ∈ (group_append key chan groups).*1.
Proof.
  intros Hk. rewrite group_append_keys. destruct (decide (key ∈ groups.*1)); [done|].
  apply elem_of_app. by left.
Qed.

(** Where an entry of the dict after [group_append] comes from. *)
Lemma group_append_entry (key k : K) chan groups (g : list (gmap string pyval)) :
  (k, g) ∈ group_append key chan groups →
  (k = key ∧ ((∃ g0, (key, g0) ∈ groups ∧ g = g0 ++ [chan])
              ∨ ((key ∉ groups.*1) ∧ g = [chan])))
  ∨ (k ≠ key ∧ (k, g) ∈ groups).
Proof.
  unfold group_append. destruct (decide (key ∈ groups.*1)) as [Hin|Hfresh].
  - intros ([k0 g0] & Heq & Hentry)%list_elem_of_fmap. simpl in Heq.
    destruct (decide (k0 = key)) as [->|Hne]; injection Heq as -> ->.
    + left. split; [done|]. left. by exists g0.
    + by right.
  - intros [Hentry|[= -> ->]%list_elem_of_singleton]%elem_of_app.
    + right. split; [|done]. intros ->. apply Hfresh.
      apply list_elem_of_fmap. by exists (key, g).
    + left. split; [done|]. by right.
Qed.
End Groups.

Lemma filter_none {A} (P : A -> Prop) `{∀ x, Decision (P x)} (l : list A) :
  (∀ x, x ∈ l → ¬ P x) → filter P l = [].
Proof.
  induction l as [|x l IH]; intros Hnone; [done|].
  rewrite filter_cons_False by (apply Hnone; by left).
  apply IH. intros y Hy. apply Hnone. by right.
Qed.

Section FileInfo.
Implicit Types (chan : gmap string pyval) (channels : list (pyval * list (gmap string pyval))).

(** The channels kept so far, as they are stored. *)
Local Abbreviation kept_of chans := (with_opc_fields <$> filter playable chans).

(** What the dict [channels] is with respect to the channels kept so far:
    one entry per sample rate, holding the kept channels of that rate in
    order, and a rate for every kept channel. *)
Local Abbreviation grouped channels kept :=
  (NoDup channels.*1
   ∧ (∀ rate group, (rate, group) ∈ channels →
        group ≠ [] ∧ group = filter (fun chan => rate_of chan = Some rate) kept)
   ∧ (∀ chan, chan ∈ kept → ∃ rate, rate_of chan = Some rate ∧ rate ∈ channels.*1)).

Lemma grouped_append channels (kept : list (gmap string pyval)) chan (rate : pyval) :
  grouped channels kept →
  rate_of chan = Some rate →
  grouped (group_append rate chan channels) (kept ++ [chan]).
Proof.
  intros (Hnodup & Hgroups & Hrates) Hrate. split; [by apply group_append_NoDup|]. split.
  - intros k g Hentry. rewrite filter_app.
    apply group_append_entry in Hentry
      as [[-> [(g0 & Hg0 & ->)|[Hfresh ->]]]|[Hne Hentry]].
    + destruct (Hgroups rate g0 Hg0) as [_ Hfilter]. split; [by destruct g0|].
      rewrite <- Hfilter. f_equal. by rewrite filter_cons_True.
    + split; [done|]. rewrite filter_cons_True by done.
      rewrite (filter_none (fun chan => rate_of chan = Some rate) kept); [done|].
      intros c Hc Hsame. destruct (Hrates c Hc) as (k & Hk & Hin).
      apply Hfresh. congruence.
    + destruct (Hgroups k g Hentry) as [Hnonempty Hfilter]. split; [done|].
      rewrite filter_cons_False by congruence. simpl. by rewrite app_nil_r.
  - intros c [Hc| ->%list_elem_of_singleton]%elem_of_app.
    + destruct (Hrates c Hc) as (k & Hk & Hin). exists k. split; [done|].
      by apply group_append_keys_grow.
    + exists rate. split; [done|]. apply group_append_key_in.
Qed.
End FileInfo.

Lemma with_opc_fields_lookup (chan : gmap string pyval) (key : string) :
  key ≠ "opc_obj"%string → key ≠ "opc_value"%string →
  with_opc_fields chan !! key = chan !! key.
Proof.
  intros Hobj Hvalue. unfold with_opc_fields.
  by rewrite !lookup_insert_ne.
Qed.

(** A round of [get_file_info] passes over a channel that is textual or has
    no sample rate, and files any other channel under its sample rate. *)
Lemma file_info_step_channels
    (modules modules' : list (string * list (gmap string pyval)))
    (channels channels' : list (pyval * list (gmap string pyval)))
    (name : string) (chan : gmap string pyval) :
  file_info_step (modules, channels) (name, chan) = Ok (modules', channels') →
  (¬ playable chan ∧ channels' = channels)
  ∨ (playable chan
     ∧ ∃ rate, rate_of (with_opc_fields chan) = Some rate
               ∧ channels' = group_append rate (with_opc_fields chan) channels).
Proof.
  unfold file_info_step, dict_getitem, playable, rate_of.
  destruct (chan !! "type"%string) as [type|] eqn:Htype; [|done]. cbn [rbind].
  destruct (decide (type = PStr "text")) as [->|Htext].
  { rewrite bool_decide_eq_true_2 by done. cbn [orb]. intros [= <- <-].
    left. split; [|done]. by intros [? _]. }
  rewrite (bool_decide_eq_false_2 (type = PStr "text")) by done. cbn [orb].
  destruct (chan !! "$PDA_Tbase"%string) as [rate|] eqn:Hrate.
  2:{ rewrite bool_decide_eq_true_2 by done. intros [= <- <-].
      left. split; [|done]. by intros [_ ?]. }
  rewrite bool_decide_eq_false_2 by done.
  rewrite !with_opc_fields_lookup by done. rewrite Hrate.
  destruct (chan !! "module_no"%string); [|done].
  destruct (chan !! "module"%string); [|done]. cbn [rbind].
  intros [= <- <-]. right. split; [split; congruence|]. by exists rate.
Qed.

Lemma kept_snoc (chans : list (gmap string pyval)) (chan : gmap string pyval) :
  with_opc_fields <$> filter playable (chans ++ [chan])
  = (with_opc_fields <$> filter playable chans)
    ++ (if decide (playable chan) then [with_opc_fields chan] else []).
Proof.
  rewrite filter_app, fmap_app. f_equal.
  destruct (decide (playable chan)).
  - by rewrite filter_cons_True.
  - by rewrite filter_cons_False.
Qed.

Lemma file_info_loop_channels (items : list (string * gmap string pyval))
    (seen : list (gmap string pyval))
    (modules modules' : list (string * list (gmap string pyval)))
    (channels channels' : list (pyval * list (gmap string pyval))) :
  for_each file_info_step (modules, channels) items = Ok (modules', channels') →
  NoDup channels.*1
  ∧ (∀ rate group, (rate, group) ∈ channels →
       group ≠ []
       ∧ group = filter (fun chan => rate_of chan = Some rate)
                   (with_opc_fields <$> filter playable seen))
  ∧ (∀ chan, chan ∈ with_opc_fields <$> filter playable seen →
       ∃ rate, rate_of chan = Some rate ∧ rate ∈ channels.*1) →
  NoDup channels'.*1
  ∧ (∀ rate group, (rate, group) ∈ channels' →
       group ≠ []
       ∧ group = filter (fun chan => rate_of chan = Some rate)
                   (with_opc_fields <$> filter playable (seen ++ items.*2)))
  ∧ (∀ chan, chan ∈ with_opc_fields <$> filter playable (seen ++ items.*2) →
       ∃ rate, rate_of chan = Some rate ∧ rate ∈ channels'.*1).
Proof.
  revert seen modules channels.
  induction items as [|[name chan] items IH]; intros seen modules channels Hrun Hgrouped.
  - simpl in Hrun. injection Hrun as <- <-. by rewrite app_nil_r.
  - rewrite for_each_cons in Hrun.
    apply rbind_Ok in Hrun as ([modules1 channels1] & Hstep & Hrun).
    replace (seen ++ ((name, chan) :: items).*2) with ((seen ++ [chan]) ++ items.*2)
      by (by rewrite <- app_assoc).
    apply (IH (seen ++ [chan]) modules1 channels1 Hrun).
    rewrite kept_snoc.
    apply file_info_step_channels in Hstep
      as [[Hskip ->]|(Hplay & rate & Hrate & ->)].
    + rewrite decide_False by done. by rewrite app_nil_r.
    + rewrite decide_True by done. by apply grouped_append.
Qed.

(** X25: [get_file_info] sorts the channels into play-back groups by sample
    rate.  Of the channels it is given it keeps those that are not textual
    and have a sample rate; the dict [channels] it returns has one entry per
    sample rate, no entry is empty, the entry of a rate holds exactly the
    kept channels of that rate in their original order, and every kept
    channel is in the entry of its rate. *)
Theorem get_file_info_groups_by_rate
    (channel_info : list (string * gmap string pyval))
    (modules : list (string * list (gmap string pyval)))
    (channels : list (pyval * list (gmap string pyval))) :
  get_file_info channel_info = Ok (modules, channels) →
  let kept := with_opc_fields <$> filter playable channel_info.*2 in
  NoDup channels.*1
  ∧ (∀ rate group, (rate, group) ∈ channels →
       group ≠ [] ∧ group = filter (fun chan => rate_of chan = Some rate) kept)
  ∧ (∀ chan, chan ∈ kept →
       ∃ rate group, rate_of chan = Some rate ∧ (rate, group) ∈ channels ∧ chan ∈ group).
Proof.
  intros Hrun kept. unfold get_file_info in Hrun.
  destruct (file_info_loop_channels channel_info [] [] modules [] channels Hrun)
    as (Hnodup & Hgroups & Hrates).
  { split; [constructor|]. split; [by intros ?? ?%elem_of_nil|by intros ? ?%elem_of_nil]. }
  simpl in Hgroups, Hrates. fold kept in Hgroups, Hrates.
  split; [done|]. split; [done|].
  intros chan Hchan. destruct (Hrates chan Hchan) as (rate & Hrate & Hkey).
  apply list_elem_of_fmap in Hkey as ([rate' group] & -> & Hentry). simpl in Hrate.
  exists rate', group. split; [done|]. split; [done|].
  destruct (Hgroups rate' group Hentry) as [_ ->].
  apply list_elem_of_filter. by split.
Qed.

(** Three analog channels at two rates and a text channel. *)
Lemma get_file_info_witness :
  ∃ modules channels,
    get_file_info ServerFixtures.channel_info = Ok (modules, channels)
    ∧ channels.*1 = [PStr "0.01"; PStr "0.1"]
    ∧ NoDup channels.*1.
Proof.
  eexists. eexists. split; [vm_compute; reflexivity|]. split; [reflexivity|].
  eapply (get_file_info_groups_by_rate ServerFixtures.channel_info).
  vm_compute. reflexivity.
Defined.


